(** * Jiffy NG marketplace: customer and vendor dashboards

    A shallow embedding of the procedural logic of
    [src/pages/CustomerDashboard.tsx] and [src/pages/VendorDashboard.tsx].

    The asynchronous functions of the two React components are written in a
    small state-and-exception monad over a [World]: the component's
    [useState] cells, the chronological trace of everything the code does to
    the outside (requests, toasts, navigation, console output) and the hosted
    backend.  The backend is an external collaborator; it is an oracle whose
    reply to a request may depend on everything that happened before it. *)

From Stdlib Require Import List String Ascii ZArith Bool Permutation Sorted Lia.
From Stdlib Require Import Floats.PrimFloat.
From Stdlib Require DecimalString.
Import ListNotations.
Open Scope string_scope.
Open Scope list_scope.

(* ================================================================= *)
(** ** JavaScript control flow: completions, try / catch / finally *)

Module Js.

(** A thrown value.  Every value thrown or caught in the two components is
    read through its [message] only. *)
Record Error := mkError { message : string }.

(** How the evaluation of an (awaited) expression ends. *)
Inductive Completion (A : Type) : Type :=
| Normal (a : A)
| Throw (e : Error).
Arguments Normal {A} a.
Arguments Throw {A} e.

(** Computations over a world [W]. *)
Definition M (W A : Type) : Type := W -> Completion A * W.

Section Exec.
Context {W : Type}.

Definition ret {A} (a : A) : M W A := fun w => (Normal a, w).

Definition throw {A} (e : Error) : M W A := fun w => (Throw e, w).

Definition bind {A B} (m : M W A) (k : A -> M W B) : M W B :=
  fun w =>
    match m w with
    | (Normal a, w') => k a w'
    | (Throw e, w') => (Throw e, w')
    end.

(** [try { body } catch (e) { handler e } finally { fin }].  The
    [finally] block runs on every path; a [throw] from it replaces the
    completion of the rest. *)
Definition try_catch_finally {A}
    (body : M W A) (handler : Error -> M W A) (fin : M W unit) : M W A :=
  fun w =>
    let '(r1, w1) :=
      match body w with
      | (Normal a, w') => (Normal a, w')
      | (Throw e, w') => handler e w'
      end in
    match fin w1 with
    | (Normal _, w2) => (r1, w2)
    | (Throw e, w2) => (Throw e, w2)
    end.

(** [try { body } catch (e) { handler e }]. *)
Definition try_catch {A} (body : M W A) (handler : Error -> M W A)
  : M W A :=
  try_catch_finally body handler (ret tt).

(** [a || b] on strings: the empty string is falsy. *)
Definition or_string (a b : string) : string :=
  if String.eqb a "" then b else a.

(** [a || b] where [a] may be null or undefined. *)
Definition or_else {A} (a : option A) (b : A) : A :=
  match a with Some x => x | None => b end.

End Exec.

Declare Scope js_scope.
Delimit Scope js_scope with js.
Notation "x <- c ;; k" := (bind c (fun x => k))
  (at level 61, c at next level, right associativity) : js_scope.
Notation "c ;; k" := (bind c (fun _ => k))
  (at level 61, right associativity) : js_scope.

End Js.

Import Js.
Open Scope js_scope.

(** JavaScript's [number]. *)
Definition number : Type := float.

(* ================================================================= *)
(** ** Data model *)

(** [interface Order], CustomerDashboard.tsx. *)
Module Order.

(** ["pending" | "accepted" | "in_transit" | "delivered" | "cancelled"] *)
Inductive Status : Type :=
| pending
| accepted
| in_transit
| delivered
| cancelled.

Definition Status_eqb (a b : Status) : bool :=
  match a, b with
  | pending, pending
  | accepted, accepted
  | in_transit, in_transit
  | delivered, delivered
  | cancelled, cancelled => true
  | _, _ => false
  end.

Record t := mk {
  id : string;
  product_name : string;
  product_price : number;
  quantity : number;
  total_amount : number;
  delivery_address : string;
  customer_phone : string;
  status : Status;
  created_at : string;
  rider_id : option string
}.

End Order.

(** [interface Product], VendorDashboard.tsx. *)
Module Product.

Record t := mk {
  id : string;
  name : string;
  description : option string;
  price : number;
  image_url : option string;
  stock : number;
  category : option string;
  created_at : string
}.

End Product.

(** [Array.prototype.includes] over a type with a boolean equality. *)
Definition includes {A} (eqb : A -> A -> bool) (l : list A) (x : A) : bool :=
  existsb (eqb x) l.

(* ================================================================= *)
(** ** The hosted backend, as seen through its client *)

Module Supabase.

Record User := mkUser { id : string }.
Record Session := mkSession { user : User }.

(** A row of [user_roles] as selected by [.select("role")]. *)
Record RoleRow := mkRoleRow { role : string }.

(** What awaiting a query builder yields: [{ data, error }]. *)
Record Response (A : Type) := mkResponse {
  data : option A;
  error : option Error
}.
Arguments mkResponse {A} data error.
Arguments data {A} r.
Arguments error {A} r.

(** Whether awaiting a query ended in failure: a rejection, or a reply
    carrying an error. *)
Definition failed {A} (c : Completion (Response A)) : bool :=
  match c with
  | Throw _ => true
  | Normal r =>
      match error r with
      | Some _ => true
      | None => false
      end
  end.

(** [from(t).select(c).eq(k, v)....order(col, { ascending })[.single()]] *)
Record Query := mkQuery {
  q_from : string;
  q_select : string;
  q_eq : list (string * string);
  q_order : option (string * bool);
  q_single : bool
}.

(** Values of the object literals handed to [insert] and [update]. *)
Inductive Value : Type :=
| VString (s : string)
| VNumber (n : number)
| VNull.

Definition Row : Type := list (string * Value).

Inductive Mutation : Type :=
| Insert (table : string) (values : Row)
| Update (table : string) (values : Row) (eq : list (string * string))
| Delete (table : string) (eq : list (string * string)).

(** A browser [File], by the two properties the code reads. *)
Record File := mkFile { file_name : string; file_size : Z }.

(** The binding passed to [channel.on('postgres_changes', binding, cb)]. *)
Record ChangesFilter := mkFilter {
  event : string;
  schema : string;
  table : string
}.

(** A change notification of the realtime feed.  The rows it carries are
    never read by the code. *)
Record ChangePayload := mkPayload {
  eventType : string;
  p_schema : string;
  p_table : string;
  p_new : Row;
  p_old : Row
}.

Record Channel := mkChannel { topic : string; binding : ChangesFilter }.

(** Everything the code does that is visible outside the component, in the
    order it happens. *)
Inductive Event : Type :=
| EvGetSession
| EvSignOut
| EvSelect (q : Query)
| EvMutate (m : Mutation)
| EvUpload (bucket path : string) (f : File)
| EvSubscribe (c : Channel)
| EvRemoveChannel (c : Channel)
| EvToastError (msg : string)
| EvToastSuccess (msg : string)
| EvNavigate (path : string)
| EvConsoleLog (msg : string) (p : ChangePayload)
| EvConsoleError (e : Error)
| EvPreventDefault
| EvUnhandledRejection (e : Error).

(** The backend: its reply to each request, given the history so far. *)
Record Backend := mkBackend {
  auth_getSession : list Event -> Completion (option Session);
  auth_signOut : list Event -> Completion unit;
  select_user_roles : list Event -> Query -> Completion (Response RoleRow);
  select_orders : list Event -> Query -> Completion (Response (list Order.t));
  select_products :
    list Event -> Query -> Completion (Response (list Product.t));
  mutate_products : list Event -> Mutation -> Completion (Response unit);
  storage_upload :
    list Event -> string -> string -> File -> Completion (Response unit);
  storage_getPublicUrl : string -> string -> string;
  Date_now : list Event -> Z
}.

(** The world of a mounted component with [useState] cells [S]. *)
Record World (S : Type) := mkWorld {
  backend : Backend;
  trace : list Event;
  channels : list Channel;
  ui : S
}.
Arguments mkWorld {S} backend trace channels ui.
Arguments backend {S} w.
Arguments trace {S} w.
Arguments channels {S} w.
Arguments ui {S} w.

Section Client.
Context {S : Type}.

Definition log (e : Event) (w : World S) : World S :=
  mkWorld (backend w) (trace w ++ [e]) (channels w) (ui w).

Definition set_ui (f : S -> S) (w : World S) : World S :=
  mkWorld (backend w) (trace w) (channels w) (f (ui w)).

Definition set_channels (f : list Channel -> list Channel) (w : World S)
  : World S :=
  mkWorld (backend w) (trace w) (f (channels w)) (ui w).

Definition emit (e : Event) : M (World S) unit :=
  fun w => (Normal tt, log e w).

(** A request: the backend answers from the history before it, and the
    request joins the history. *)
Definition request {A} (e : Event)
    (reply : Backend -> list Event -> Completion A) : M (World S) A :=
  fun w => (reply (backend w) (trace w), log e w).

Definition get (w : World S) : Completion S * World S := (Normal (ui w), w).

Definition modify (f : S -> S) : M (World S) unit :=
  fun w => (Normal tt, set_ui f w).

(** [await supabase.auth.getSession()], destructured to its session. *)
Definition getSession : M (World S) (option Session) :=
  request EvGetSession auth_getSession.

Definition signOut : M (World S) unit :=
  request EvSignOut auth_signOut.

Definition from_user_roles (q : Query) : M (World S) (Response RoleRow) :=
  request (EvSelect q) (fun b h => select_user_roles b h q).

Definition from_orders (q : Query)
  : M (World S) (Response (list Order.t)) :=
  request (EvSelect q) (fun b h => select_orders b h q).

Definition from_products (q : Query)
  : M (World S) (Response (list Product.t)) :=
  request (EvSelect q) (fun b h => select_products b h q).

Definition mutate (m : Mutation) : M (World S) (Response unit) :=
  request (EvMutate m) (fun b h => mutate_products b h m).

Definition upload (bucket path : string) (f : File)
  : M (World S) (Response unit) :=
  request (EvUpload bucket path f)
          (fun b h => storage_upload b h bucket path f).

(** [supabase.storage.from(bucket).getPublicUrl(path).data.publicUrl];
    no request is made. *)
Definition getPublicUrl (bucket path : string) : M (World S) string :=
  fun w => (Normal (storage_getPublicUrl (backend w) bucket path), w).

(** [Date.now()] *)
Definition date_now : M (World S) Z :=
  fun w => (Normal (Date_now (backend w) (trace w)), w).

Definition toast_error (msg : string) : M (World S) unit :=
  emit (EvToastError msg).

Definition toast_success (msg : string) : M (World S) unit :=
  emit (EvToastSuccess msg).

Definition navigate (path : string) : M (World S) unit :=
  emit (EvNavigate path).

Definition console_error (e : Error) : M (World S) unit :=
  emit (EvConsoleError e).

Definition console_log (msg : string) (p : ChangePayload)
  : M (World S) unit :=
  emit (EvConsoleLog msg p).

(** Calling an [async] function without awaiting it: the caller goes on
    whatever the outcome; a rejection nobody handles is reported by the
    runtime. *)
Definition fire (m : M (World S) unit) : M (World S) unit :=
  fun w =>
    match m w with
    | (Normal _, w') => (Normal tt, w')
    | (Throw e, w') => (Normal tt, log (EvUnhandledRejection e) w')
    end.

(** [supabase.channel(topic).on('postgres_changes', binding, cb)
    .subscribe()] *)
Definition subscribe (c : Channel) : M (World S) unit :=
  fun w =>
    (Normal tt, set_channels (fun cs => cs ++ [c]) (log (EvSubscribe c) w)).

(** [supabase.removeChannel(c)] *)
Definition removeChannel (c : Channel) : M (World S) unit :=
  fun w =>
    (Normal tt,
     set_channels
       (filter (fun c' => negb (String.eqb (topic c') (topic c))))
       (log (EvRemoveChannel c) w)).

(** Which changes the realtime service hands to a binding: the binding's
    event is ["*"] or the change's own type, and schema and table agree.
    The service is outside the repository; this is its filtering rule for
    [postgres_changes] bindings. *)
Definition binding_matches (b : ChangesFilter) (p : ChangePayload)
  : bool :=
  (String.eqb (event b) "*" || String.eqb (event b) (eventType p))
  && String.eqb (schema b) (p_schema p)
  && String.eqb (table b) (p_table p).

(** A change reaches the callback [cb] of every subscribed channel whose
    binding matches it. *)
Fixpoint dispatch (cb : ChangePayload -> M (World S) unit)
    (cs : list Channel) (p : ChangePayload) : M (World S) unit :=
  match cs with
  | [] => ret tt
  | c :: cs' =>
      (if binding_matches (binding c) p then cb p else ret tt) ;;
      dispatch cb cs' p
  end.

Definition notify (cb : ChangePayload -> M (World S) unit)
    (p : ChangePayload) : M (World S) unit :=
  fun w => dispatch cb (channels w) p w.

(** The session the backend reports when asked at [w]. *)
Definition session_reply (w : World S) : Completion (option Session) :=
  auth_getSession (backend w) (trace w).

(** The events a computation adds to the trace of [w]. *)
Definition emitted {A} (m : M (World S) A) (w : World S) : list Event :=
  skipn (List.length (trace w)) (trace (snd (m w))).

End Client.

End Supabase.

Import Supabase.

(* ================================================================= *)
(** ** CustomerDashboard.tsx *)

Module CustomerDashboard.

Import Order.

(** The component's [useState] cells. *)
Record State := mkState {
  activeOrders : list Order.t;
  orderHistory : list Order.t;
  loading : bool
}.

(** [useState([])], [useState([])], [useState(true)] *)
Definition initial : State := mkState [] [] true.

Definition W : Type := World State.

Definition setActiveOrders (l : list Order.t) : M W unit :=
  modify (fun s => mkState l (orderHistory s) (loading s)).

Definition setOrderHistory (l : list Order.t) : M W unit :=
  modify (fun s => mkState (activeOrders s) l (loading s)).

Definition setLoading (b : bool) : M W unit :=
  modify (fun s => mkState (activeOrders s) (orderHistory s) b).

(** [from("user_roles").select("role").eq("user_id", uid).single()] *)
Definition role_query (uid : string) : Query :=
  mkQuery "user_roles" "role" [("user_id", uid)] None true.

(** [from("orders").select("*").eq("customer_id", uid)
      .order("created_at", { ascending: false })] *)
Definition orders_query (uid : string) : Query :=
  mkQuery "orders" "*" [("customer_id", uid)]
          (Some ("created_at", false)) false.

(** [roleData?.role === r] *)
Definition role_is (roleData : option RoleRow) (r : string) : bool :=
  match roleData with
  | Some row => String.eqb (role row) r
  | None => false
  end.

(** [order => ['pending', 'accepted', 'in_transit'].includes(order.status)] *)
Definition is_active (order : Order.t) : bool :=
  includes Status_eqb [pending; accepted; in_transit] (status order).

(** [order => ['delivered', 'cancelled'].includes(order.status)] *)
Definition is_history (order : Order.t) : bool :=
  includes Status_eqb [delivered; cancelled] (status order).

Definition loadOrders : M W unit :=
  try_catch_finally
    (session <- getSession ;;
     match session with
     | None => ret tt
     | Some session =>
         r <- from_orders (orders_query (Supabase.id (user session))) ;;
         let ordersData := data r in
         match error r with
         | Some error => throw error
         | None =>
             let active :=
               or_else (option_map (filter is_active) ordersData) [] in
             let history :=
               or_else (option_map (filter is_history) ordersData) [] in
             setActiveOrders active ;;
             setOrderHistory history
         end
     end)
    (fun error =>
       toast_error "Failed to load orders" ;;
       console_error error)
    (setLoading false).

Definition access_denied : string :=
  "Access denied. Customer account required.".

Definition checkCustomerAndLoadOrders : M W unit :=
  session <- getSession ;;
  match session with
  | None => navigate "/auth"
  | Some session =>
      r <- from_user_roles (role_query (Supabase.id (user session))) ;;
      let roleData := data r in
      if negb (role_is roleData "customer") then
        toast_error access_denied ;;
        navigate "/"
      else
        fire loadOrders
  end.

(** The realtime channel of the component and its binding. *)
Definition channel : Channel :=
  mkChannel "customer-orders-changes" (mkFilter "UPDATE" "public" "orders").

(** The callback of the subscription. *)
Definition on_postgres_changes (payload : ChangePayload) : M W unit :=
  console_log "Order updated:" payload ;;
  fire loadOrders.

(** [checkCustomerAndLoadOrders] from its first [await] on: what it does
    once the session request has settled with [session]. *)
Definition checkCustomerAndLoadOrders_resumed (session : option Session)
  : M W unit :=
  match session with
  | None => navigate "/auth"
  | Some session =>
      r <- from_user_roles (role_query (Supabase.id (user session))) ;;
      let roleData := data r in
      if negb (role_is roleData "customer") then
        toast_error access_denied ;;
        navigate "/"
      else
        fire loadOrders
  end.

(** A promise that has settled as [c], awaited. *)
Definition settled {A} (c : Completion A) : M W A := fun w => (c, w).

(** The body of [useEffect(..., [])].  [checkCustomerAndLoadOrders()] is
    called without being awaited: it runs up to its first [await], which
    sends the session request, and gives control back; the channel is
    subscribed in the same turn; the call goes on in a later turn, when the
    session request has settled, and a rejection it ends with is handled
    by nobody. *)
Definition useEffect : M W unit :=
  fun w =>
    let '(reply, w1) := getSession w in
    let '(_, w2) := subscribe channel w1 in
    fire (session <- settled reply ;;
          checkCustomerAndLoadOrders_resumed session) w2.

Definition useEffect_cleanup : M W unit :=
  removeChannel channel.

(** The change feed signals [p] to the mounted component. *)
Definition onExternalChangeNotification (p : ChangePayload) : M W unit :=
  notify on_postgres_changes p.

Definition handleSignOut : M W unit :=
  signOut ;;
  navigate "/auth".

(** The reply to the order query of [loadOrders] started at [w] under the
    session [s]: it is asked after the session request. *)
Definition orders_reply (w : W) (s : Session)
  : Completion (Response (list Order.t)) :=
  select_orders (backend w) (trace w ++ [EvGetSession])
                (orders_query (Supabase.id (user s))).

(** The reply to the role lookup of [checkCustomerAndLoadOrders]. *)
Definition role_reply (w : W) (s : Session)
  : Completion (Response RoleRow) :=
  select_user_roles (backend w) (trace w ++ [EvGetSession])
                    (role_query (Supabase.id (user s))).

(** The events [loadOrders] can add to the trace. *)
Definition loadOrders_event (e : Event) : Prop :=
  match e with
  | EvGetSession | EvSelect _ | EvConsoleError _ => True
  | EvToastError msg => msg = "Failed to load orders"
  | _ => False
  end.

(** The partition [loadOrders] stores for the fetched rows. *)
Definition partitioned (ordersData : option (list Order.t)) : State :=
  mkState (or_else (option_map (filter is_active) ordersData) [])
          (or_else (option_map (filter is_history) ordersData) [])
          false.

End CustomerDashboard.

(* ================================================================= *)
(** ** VendorDashboard.tsx *)

Module VendorDashboard.

(** The five text fields of the product form. *)
Record FormData := mkFormData {
  name : string;
  description : string;
  price : string;
  stock : string;
  category : string
}.

Definition emptyForm : FormData := mkFormData "" "" "" "" "".

(** The component's [useState] cells. *)
Record State := mkState {
  products : list Product.t;
  loading : bool;
  isDialogOpen : bool;
  imageFile : option File;
  imagePreview : string;
  uploading : bool;
  editingProduct : option Product.t;
  formData : FormData
}.

Definition initial : State :=
  mkState [] true false None "" false None emptyForm.

Definition W : Type := World State.

Definition setProducts (l : list Product.t) : M W unit :=
  modify (fun s => mkState l (loading s) (isDialogOpen s) (imageFile s)
                           (imagePreview s) (uploading s)
                           (editingProduct s) (formData s)).

Definition setLoading (b : bool) : M W unit :=
  modify (fun s => mkState (products s) b (isDialogOpen s) (imageFile s)
                           (imagePreview s) (uploading s)
                           (editingProduct s) (formData s)).

Definition setIsDialogOpen (b : bool) : M W unit :=
  modify (fun s => mkState (products s) (loading s) b (imageFile s)
                           (imagePreview s) (uploading s)
                           (editingProduct s) (formData s)).

Definition setImageFile (f : option File) : M W unit :=
  modify (fun s => mkState (products s) (loading s) (isDialogOpen s) f
                           (imagePreview s) (uploading s)
                           (editingProduct s) (formData s)).

Definition setImagePreview (p : string) : M W unit :=
  modify (fun s => mkState (products s) (loading s) (isDialogOpen s)
                           (imageFile s) p (uploading s)
                           (editingProduct s) (formData s)).

Definition setUploading (b : bool) : M W unit :=
  modify (fun s => mkState (products s) (loading s) (isDialogOpen s)
                           (imageFile s) (imagePreview s) b
                           (editingProduct s) (formData s)).

Definition setEditingProduct (p : option Product.t) : M W unit :=
  modify (fun s => mkState (products s) (loading s) (isDialogOpen s)
                           (imageFile s) (imagePreview s) (uploading s)
                           p (formData s)).

Definition setFormData (f : FormData) : M W unit :=
  modify (fun s => mkState (products s) (loading s) (isDialogOpen s)
                           (imageFile s) (imagePreview s) (uploading s)
                           (editingProduct s) f).

(** What the form holds between renders: the fields, the chosen image, the
    product being edited and whether the dialog is open. *)
Definition form_of (s : State)
  : FormData * option File * string * option Product.t * bool :=
  (formData s, imageFile s, imagePreview s, editingProduct s,
   isDialogOpen s).

(** [from("user_roles").select("role").eq("user_id", uid).single()] *)
Definition role_query (uid : string) : Query :=
  mkQuery "user_roles" "role" [("user_id", uid)] None true.

(** [from("products").select("*")
      .order("created_at", { ascending: false })] *)
Definition products_query : Query :=
  mkQuery "products" "*" [] (Some ("created_at", false)) false.

Definition role_is (roleData : option RoleRow) (r : string) : bool :=
  match roleData with
  | Some row => String.eqb (role row) r
  | None => false
  end.

Definition loadProducts : M W unit :=
  try_catch_finally
    (r <- from_products products_query ;;
     match error r with
     | Some error => throw error
     | None => setProducts (or_else (data r) [])
     end)
    (fun _ => toast_error "Failed to load products")
    (setLoading false).

Definition checkVendorAndLoadProducts : M W unit :=
  session <- getSession ;;
  match session with
  | None => navigate "/auth"
  | Some session =>
      r <- from_user_roles (role_query (Supabase.id (user session))) ;;
      let roleData := data r in
      if negb (role_is roleData "vendor") then
        toast_error "Access denied. Vendor account required." ;;
        navigate "/"
      else
        fire loadProducts
  end.

(** [s.split(sep)] for a one-character separator. *)
Fixpoint split (sep : ascii) (s : string) : list string :=
  match s with
  | EmptyString => [""]
  | String c s' =>
      if Ascii.eqb c sep then "" :: split sep s'
      else
        match split sep s' with
        | x :: xs => String c x :: xs
        | [] => [String c ""]
        end
  end.

(** [`${n}`] for an integral number. *)
Definition string_of_Z (n : Z) : string :=
  DecimalString.NilZero.string_of_int (Z.to_int n).

Definition uploadImage (file : File) : M W string :=
  session <- getSession ;;
  match session with
  | None => throw (mkError "Not authenticated")
  | Some session =>
      let fileExt := last (split "."%char (file_name file)) "" in
      now <- date_now ;;
      let fileName :=
        (Supabase.id (user session) ++ "-" ++ string_of_Z now ++ "."
           ++ fileExt)%string in
      let filePath := fileName in
      r <- upload "product-images" filePath file ;;
      match error r with
      | Some uploadError => throw uploadError
      | None => getPublicUrl "product-images" filePath
      end
  end.

Definition removeImage : M W unit :=
  setImageFile None ;;
  setImagePreview "".

Definition resetForm : M W unit :=
  setFormData (mkFormData "" "" "" "" "") ;;
  setImageFile None ;;
  setImagePreview "" ;;
  setEditingProduct None.

Definition handleDelete (id : string) : M W unit :=
  try_catch
    (r <- mutate (Delete "products" [("id", id)]) ;;
     match error r with
     | Some error => throw error
     | None =>
         toast_success "Product deleted successfully!" ;;
         fire loadProducts
     end)
    (fun _ => toast_error "Failed to delete product").

Definition handleSignOut : M W unit :=
  signOut ;;
  navigate "/auth".

(** [productSchema.safeParse(formData)]: either the parsed fields or the
    message of the first issue. *)
Record Parsed := mkParsed {
  p_name : string;
  p_description : option string;
  p_price : string;
  p_stock : string;
  p_category : option string
}.

Inductive SafeParseResult : Type :=
| ParseSuccess (data : Parsed)
| ParseFailure (firstError : string).

(** [x || null] for an optional string: undefined and the empty string
    both give null. *)
Definition truthy (x : option string) : option string :=
  match x with
  | Some s => if String.eqb s "" then None else Some s
  | None => None
  end.

Definition value_of (x : option string) : Value :=
  match x with
  | Some s => VString s
  | None => VNull
  end.

Section Form.

(** The schema validator and the numeric conversions of the language
    are taken as given. *)
Variable safeParse : FormData -> SafeParseResult.
Variable parseFloat : string -> number.
Variable parseInt : string -> number.
Variable toString : number -> string.
Variable readAsDataURL : File -> string.

(** [e.target.files?.[0]] is [file]. *)
Definition handleImageChange (file : option File) : M W unit :=
  match file with
  | Some file =>
      if (5 * 1024 * 1024 <? file_size file)%Z then
        toast_error "Image size must be less than 5MB"
      else
        setImageFile (Some file) ;;
        setImagePreview (readAsDataURL file)
  | None => ret tt
  end.

Definition handleEdit (product : Product.t) : M W unit :=
  setEditingProduct (Some product) ;;
  setFormData
    (mkFormData (Product.name product)
                (or_else (Product.description product) "")
                (toString (Product.price product))
                (toString (Product.stock product))
                (or_else (Product.category product) "")) ;;
  setImagePreview (or_else (Product.image_url product) "") ;;
  setIsDialogOpen true.

(** The columns written by both [update] and [insert]. *)
Definition product_values (d : Parsed) (imageUrl : option string) : Row :=
  [ ("name", VString (p_name d));
    ("description", value_of (truthy (p_description d)));
    ("price", VNumber (parseFloat (p_price d)));
    ("image_url", value_of imageUrl);
    ("stock", VNumber (parseInt (p_stock d)));
    ("category", value_of (truthy (p_category d))) ].

(** [formData], [editingProduct] and [imageFile] are the values of the
    render the handler was created in. *)
Definition handleSubmit : M W unit :=
  st <- get ;;
  let formData := formData st in
  let editingProduct := editingProduct st in
  let imageFile := imageFile st in
  emit EvPreventDefault ;;
  try_catch_finally
    (setUploading true ;;
     match safeParse formData with
     | ParseFailure firstError => toast_error firstError
     | ParseSuccess data =>
         session <- getSession ;;
         match session with
         | None => throw (mkError "Not authenticated")
         | Some session =>
             imageUrl <-
               match imageFile with
               | Some file => url <- uploadImage file ;; ret (Some url)
               | None =>
                   ret (truthy (match editingProduct with
                                | Some p => Product.image_url p
                                | None => None
                                end))
               end ;;
             match editingProduct with
             | Some editing =>
                 r <- mutate (Update "products"
                                     (product_values data imageUrl)
                                     [("id", Product.id editing)]) ;;
                 match error r with
                 | Some error => throw error
                 | None => toast_success "Product updated successfully!"
                 end
             | None =>
                 r <- mutate (Insert "products"
                                (("vendor_id",
                                  VString (Supabase.id (user session)))
                                 :: product_values data imageUrl)) ;;
                 match error r with
                 | Some error => throw error
                 | None => toast_success "Product added successfully!"
                 end
             end ;;
             setIsDialogOpen false ;;
             resetForm ;;
             fire loadProducts
         end
     end)
    (fun error =>
       toast_error
         (or_string (message error)
            ("Failed to "
               ++ match editingProduct with
                  | Some _ => "update"
                  | None => "add"
                  end
               ++ " product")%string))
    (setUploading false).

End Form.

(** Whether some product mutation among the events [evs], issued after the
    history [h], was answered with a failure. *)
Fixpoint failed_mutation (b : Backend) (h evs : list Event) : bool :=
  match evs with
  | [] => false
  | e :: evs' =>
      match e with
      | EvMutate m => failed (mutate_products b h m)
      | _ => false
      end
      || failed_mutation b (h ++ [e]) evs'
  end.

(** Whether the events end with a mutation request followed by an error
    notice. *)
Definition ends_in_mutation_notice (evs : list Event) : bool :=
  match rev evs with
  | EvToastError _ :: EvMutate _ :: _ => true
  | _ => false
  end.

(** The reply to the product query of [loadProducts] started at [w]. *)
Definition products_reply (w : W)
  : Completion (Response (list Product.t)) :=
  select_products (backend w) (trace w) products_query.

Definition is_toast_error (e : Event) : bool :=
  match e with EvToastError _ => true | _ => false end.

Definition is_toast_success (e : Event) : bool :=
  match e with EvToastSuccess _ => true | _ => false end.

Definition is_unhandled (e : Event) : bool :=
  match e with EvUnhandledRejection _ => true | _ => false end.

End VendorDashboard.

(** Whether a string holds the character [c]. *)
Fixpoint has_char (c : ascii) (s : string) : bool :=
  match s with
  | EmptyString => false
  | String c' s' => Ascii.eqb c' c || has_char c s'
  end.

(* ================================================================= *)
(** ** CustomerDashboard.tsx: how the status of an order is shown *)

Module OrderCard.

Import Order.

(** The string a status is at run time. *)
Definition status_string (s : Status) : string :=
  match s with
  | pending => "pending"
  | accepted => "accepted"
  | in_transit => "in_transit"
  | delivered => "delivered"
  | cancelled => "cancelled"
  end.

(** The icons of [lucide-react] the badge uses. *)
Inductive Icon : Type :=
| Clock
| Package
| TrendingUp.

Definition getStatusBadgeVariant (status : string) : string :=
  if String.eqb status "pending" then "secondary"
  else if String.eqb status "accepted" then "default"
  else if String.eqb status "in_transit" then "default"
  else if String.eqb status "delivered" then "default"
  else if String.eqb status "cancelled" then "destructive"
  else "secondary".

Definition getStatusIcon (status : string) : Icon :=
  if String.eqb status "pending" then Clock
  else if String.eqb status "accepted" then Package
  else if String.eqb status "in_transit" then TrendingUp
  else if String.eqb status "delivered" then Package
  else Clock.

Definition getStatusDescription (status : string) : string :=
  if String.eqb status "pending" then
    "Waiting for a rider to accept your order"
  else if String.eqb status "accepted" then
    "A rider has accepted your order and will pick it up soon"
  else if String.eqb status "in_transit" then "Your order is on the way!"
  else if String.eqb status "delivered" then "Order delivered successfully"
  else if String.eqb status "cancelled" then "This order was cancelled"
  else "".

(** [s.replace(pat, rep)] for a string pattern and a replacement without
    [$]: only the first occurrence of [pat] is replaced. *)
Fixpoint replace (pat rep s : string) : string :=
  if String.prefix pat s then
    (rep ++ String.substring (String.length pat)
                             (String.length s - String.length pat) s)%string
  else
    match s with
    | EmptyString => EmptyString
    | String c s' => String c (replace pat rep s')
    end.

(** The text of the badge: [order.status.replace("_", " ")]. *)
Definition badge_label (order : Order.t) : string :=
  replace "_" " " (status_string (status order)).

(** The "Delivery Status" box of a card: shown only with [showTracking]. *)
Definition tracking (showTracking : bool) (order : Order.t)
  : option string :=
  if showTracking then
    Some (getStatusDescription (status_string (status order)))
  else None.

End OrderCard.

(* ================================================================= *)
(** ** VendorDashboard.tsx: the dialog and the handlers bound to it *)

Module VendorDialog.

Import VendorDashboard.

(** The reply to the role lookup of [checkVendorAndLoadProducts]. *)
Definition role_reply (w : W) (s : Session)
  : Completion (Response RoleRow) :=
  select_user_roles (backend w) (trace w ++ [EvGetSession])
                    (role_query (Supabase.id (user s))).

(** [onOpenChange] of the dialog:
    [(open) => { setIsDialogOpen(open); if (!open) resetForm(); }] *)
Definition onOpenChange (open : bool) : M W unit :=
  setIsDialogOpen open ;;
  if negb open then resetForm else ret tt.

Inductive Field : Type :=
| FName
| FDescription
| FPrice
| FStock
| FCategory.

(** [onChange] of the inputs: [setFormData({ ...formData, field: value })],
    with the [formData] of the render the handler was created in. *)
Definition onChange (f : Field) (value : string) : M W unit :=
  st <- get ;;
  let fd := formData st in
  setFormData
    match f with
    | FName =>
        mkFormData value (description fd) (price fd) (stock fd) (category fd)
    | FDescription =>
        mkFormData (name fd) value (price fd) (stock fd) (category fd)
    | FPrice =>
        mkFormData (name fd) (description fd) value (stock fd) (category fd)
    | FStock =>
        mkFormData (name fd) (description fd) (price fd) value (category fd)
    | FCategory =>
        mkFormData (name fd) (description fd) (price fd) (stock fd) value
    end.

(** [handleImageChange] up to the point where it returns: the size check,
    [setImageFile], and [reader.readAsDataURL(file)] started. *)
Definition handleImageChange_started (file : option File) : M W unit :=
  match file with
  | Some file =>
      if (5 * 1024 * 1024 <? file_size file)%Z then
        toast_error "Image size must be less than 5MB"
      else
        setImageFile (Some file)
  | None => ret tt
  end.

(** The last turn of a [handleSubmit] whose mutation succeeded: the
    success notice, [setIsDialogOpen(false)], [resetForm()],
    [loadProducts()] and the [finally] block. *)
Definition submission_succeeded (notice : string) : M W unit :=
  toast_success notice ;;
  setIsDialogOpen false ;;
  resetForm ;;
  fire loadProducts ;;
  setUploading false.

(** The last turn of a [handleSubmit] that failed: the [catch] and the
    [finally] block. *)
Definition submission_failed (notice : string) : M W unit :=
  toast_error notice ;;
  setUploading false.

(** The turns of the page: what the vendor does, and the callbacks that
    run later, whenever what they wait for is done, with other turns
    possibly in between. *)
Inductive Action : Type :=
| OpenChange (open : bool)
| AddFirstProduct
| Edit (product : Product.t)
| Remove (id : string)
| Change (f : Field) (value : string)
| ImageChange (file : option File)
| RemoveImage
| Submit
| ReaderLoaded (file : File)
| SubmissionSucceeded (notice : string)
| SubmissionFailed (notice : string)
| Reloaded.

(** The form, with its inputs and its submit button, is inside the dialog:
    its handlers can run only while the dialog is open.  A callback can
    run at any time. *)
Definition enabled (a : Action) (s : State) : bool :=
  match a with
  | Change _ _ | ImageChange _ | RemoveImage | Submit => isDialogOpen s
  | _ => true
  end.

Section Page.

Variable safeParse : FormData -> SafeParseResult.
Variable parseFloat : string -> number.
Variable parseInt : string -> number.
Variable toString : number -> string.
Variable readAsDataURL : File -> string.

(** [reader.onloadend]: the preview is set when the file has been read,
    after [handleImageChange] has returned. *)
Definition reader_onloadend (file : File) : M W unit :=
  setImagePreview (readAsDataURL file).

(** What each turn runs.  [Submit] and [Remove] stand for a handler the
    backend answers before anything else happens; a submission answered
    later ends with [SubmissionSucceeded] or [SubmissionFailed], a reload
    answered later is [Reloaded]. *)
Definition act (a : Action) : M W unit :=
  match a with
  | OpenChange open => onOpenChange open
  | AddFirstProduct => setIsDialogOpen true
  | Edit product => handleEdit toString product
  | Remove id => handleDelete id
  | Change f value => onChange f value
  | ImageChange file => handleImageChange_started file
  | RemoveImage => removeImage
  | Submit => handleSubmit safeParse parseFloat parseInt
  | ReaderLoaded file => reader_onloadend file
  | SubmissionSucceeded notice => submission_succeeded notice
  | SubmissionFailed notice => submission_failed notice
  | Reloaded => loadProducts
  end.

(** The page after a sequence of turns, each possible when it runs. *)
Fixpoint interact (acts : list Action) (w : W) : option W :=
  match acts with
  | [] => Some w
  | a :: rest =>
      if enabled a (ui w) then interact rest (snd (act a w)) else None
  end.

End Page.

(** While the dialog is closed the fields are empty, no image file is
    chosen and no product is being edited. *)
Definition closed_is_reset (s : State) : Prop :=
  isDialogOpen s = false ->
  formData s = emptyForm
  /\ imageFile s = None
  /\ editingProduct s = None.

Definition is_mutate (e : Event) : bool :=
  match e with EvMutate _ => true | _ => false end.

Definition is_upload (e : Event) : bool :=
  match e with EvUpload _ _ _ => true | _ => false end.

Definition is_request (e : Event) : bool :=
  match e with
  | EvGetSession | EvSignOut | EvSelect _ | EvMutate _ | EvUpload _ _ _ =>
      true
  | _ => false
  end.

(** Whether some upload among the events [evs], issued after the history
    [h], was answered with a failure. *)
Fixpoint failed_upload (b : Backend) (h evs : list Event) : bool :=
  match evs with
  | [] => false
  | e :: evs' =>
      match e with
      | EvUpload bucket path f => failed (storage_upload b h bucket path f)
      | _ => false
      end
      || failed_upload b (h ++ [e]) evs'
  end.

(** The mutation [handleSubmit] sends for the parsed fields [d] and the
    image address [imageUrl]: an update of the product being edited, or
    else an insert under the vendor [uid]. *)
Definition submitted_mutation
    (parseFloat parseInt : string -> number)
    (editing : option Product.t) (uid : string)
    (d : Parsed) (imageUrl : option string) : Mutation :=
  match editing with
  | Some p =>
      Update "products" (product_values parseFloat parseInt d imageUrl)
             [("id", Product.id p)]
  | None =>
      Insert "products"
             (("vendor_id", VString uid)
              :: product_values parseFloat parseInt d imageUrl)
  end.

End VendorDialog.

(* ================================================================= *)
(** ** Concrete backends, sessions and rows *)

Module Sample.

Import Order.

Definition alice : Session := mkSession (mkUser "c-1").

Definition order_T1 : Order.t :=
  Order.mk "o-1" "Rice 5kg" 4500%float 1%float 4500%float
           "12 Allen Avenue, Ikeja" "+2348000000001"
           pending "2025-03-01T09:00:00+00:00" None.

Definition order_T2 : Order.t :=
  Order.mk "o-2" "Palm oil 2l" 3000%float 2%float 6000%float
           "12 Allen Avenue, Ikeja" "+2348000000001"
           delivered "2025-03-02T09:00:00+00:00" (Some "r-7").

Definition order_T3 : Order.t :=
  Order.mk "o-3" "Garri 1kg" 900%float 3%float 2700%float
           "12 Allen Avenue, Ikeja" "+2348000000001"
           in_transit "2025-03-03T09:00:00+00:00" (Some "r-7").

Definition ok {A} (d : A) : Completion (Response A) :=
  Normal (mkResponse (Some d) None).

Definition empty {A} : Completion (Response A) :=
  Normal (mkResponse None None).

Definition err {A} (msg : string) : Completion (Response A) :=
  Normal (mkResponse None (Some (mkError msg))).

(** A backend whose replies do not change over time. *)
Definition steady
    (session : Completion (option Session))
    (roles : Completion (Response RoleRow))
    (orders : Completion (Response (list Order.t)))
    (products : Completion (Response (list Product.t)))
    (mutation : Completion (Response unit))
    (uploaded : Completion (Response unit)) : Backend :=
  mkBackend (fun _ => session) (fun _ => Normal tt)
            (fun _ _ => roles) (fun _ _ => orders) (fun _ _ => products)
            (fun _ _ => mutation) (fun _ _ _ _ => uploaded)
            (fun bucket path =>
               ("https://cdn.example/" ++ bucket ++ "/" ++ path)%string)
            (fun _ => 1740819600000%Z).

(** The backend of a signed-in customer whose order query is answered
    with [orders]. *)
Definition customer_backend
    (orders : Completion (Response (list Order.t))) : Backend :=
  steady (Normal (Some alice)) (ok (mkRoleRow "customer")) orders
         (ok []) empty empty.

(** A freshly rendered component over the backend [b]. *)
Definition fresh {S} (b : Backend) (s : S) : World S := mkWorld b [] [] s.

(** A customer dashboard already showing two orders. *)
Definition showing : CustomerDashboard.State :=
  CustomerDashboard.mkState [order_T1] [order_T2] false.

(** A customer dashboard before its first load, three orders waiting. *)
Definition three_orders : CustomerDashboard.W :=
  fresh (customer_backend (ok [order_T3; order_T2; order_T1]))
        CustomerDashboard.initial.

(** The scenario of a pending order and a newer delivered one. *)
Definition two_orders : CustomerDashboard.W :=
  fresh (customer_backend (ok [order_T2; order_T1]))
        CustomerDashboard.initial.

(** A dashboard showing two orders while the backend now has none. *)
Definition no_orders : CustomerDashboard.W :=
  fresh (customer_backend (ok [])) showing.

(** A dashboard showing two orders while the order query fails. *)
Definition unreachable : CustomerDashboard.W :=
  fresh (customer_backend (err "TypeError: Failed to fetch")) showing.

(** A dashboard showing two orders after the session has ended. *)
Definition signed_out : CustomerDashboard.W :=
  fresh (steady (Normal None) empty (ok [order_T1]) (ok []) empty empty)
        showing.

(** A signed-in vendor opening the customer dashboard. *)
Definition vendor_visiting : CustomerDashboard.W :=
  fresh (steady (Normal (Some alice)) (ok (mkRoleRow "vendor"))
                (ok [order_T1]) (ok []) empty empty)
        CustomerDashboard.initial.

(** A mounted customer dashboard: its channel is subscribed. *)
Definition mounted : CustomerDashboard.W :=
  mkWorld (customer_backend (ok [order_T2; order_T1])) []
          [CustomerDashboard.channel] showing.

Definition bob : Session := mkSession (mkUser "v-1").

Definition yam : Product.t :=
  Product.mk "p-1" "Yam tuber" (Some "Fresh from Benue") 1200%float
             None 40%float (Some "Food") "2025-02-20T08:00:00+00:00".

(** A product of another vendor. *)
Definition kettle : Product.t :=
  Product.mk "p-2" "Electric kettle" None 15000%float
             (Some "https://cdn.example/product-images/v-2-1.png")
             5%float (Some "Appliances") "2025-02-21T08:00:00+00:00".

(** Stand-ins for the validator and the numeric conversions. *)
Definition accept (f : VendorDashboard.FormData)
  : VendorDashboard.SafeParseResult :=
  VendorDashboard.ParseSuccess
    (VendorDashboard.mkParsed
       (VendorDashboard.name f) (Some (VendorDashboard.description f))
       (VendorDashboard.price f) (VendorDashboard.stock f)
       (Some (VendorDashboard.category f))).

Definition price_1500 (_ : string) : number := 1500%float.
Definition stock_12 (_ : string) : number := 12%float.

(** The add-product dialog, filled in. *)
Definition adding : VendorDashboard.State :=
  VendorDashboard.mkState
    [yam] false true None "" false None
    (VendorDashboard.mkFormData "Plantain" "Ripe, per bunch" "1500" "12"
                                "Food").

(** A vendor dashboard whose product mutations the backend refuses. *)
Definition refused : VendorDashboard.W :=
  fresh (steady (Normal (Some bob)) (ok (mkRoleRow "vendor")) (ok [])
                (ok [kettle; yam])
                (err "new row violates row-level security policy")
                empty)
        adding.

(** A vendor dashboard over a backend that returns two products. *)
Definition stocked : VendorDashboard.W :=
  fresh (steady (Normal (Some bob)) (ok (mkRoleRow "vendor")) (ok [])
                (ok [kettle; yam]) empty empty)
        VendorDashboard.initial.

(** Creation timestamps compared as text. *)
Definition not_older (a b : string) : Prop := String.leb b a = true.

Definition update_event : ChangePayload :=
  mkPayload "UPDATE" "public" "orders"
            [("id", VString "o-1"); ("status", VString "accepted")]
            [("id", VString "o-1")].

Definition insert_event : ChangePayload :=
  mkPayload "INSERT" "public" "orders"
            [("id", VString "o-4"); ("status", VString "pending")] [].

End Sample.

(* ================================================================= *)
(** ** Further concrete situations *)

Module Scenario.

Import Sample.

(** A customer dashboard whose session request is rejected. *)
Definition offline : CustomerDashboard.W :=
  fresh (steady (Throw (mkError "Failed to fetch")) empty (ok [order_T1])
                (ok []) empty empty)
        CustomerDashboard.initial.

(** A customer opening the vendor dashboard. *)
Definition customer_visiting : VendorDashboard.W :=
  fresh (customer_backend (ok [order_T1])) VendorDashboard.initial.

(** A vendor dashboard showing a product while the product query fails. *)
Definition catalogue_down : VendorDashboard.W :=
  fresh (steady (Normal (Some bob)) (ok (mkRoleRow "vendor")) (ok [])
                (err "canceling statement due to statement timeout")
                empty empty)
        adding.

(** An image of exactly five mebibytes, and one a byte larger. *)
Definition photo_5MB : File := mkFile "plantain.jpeg" 5242880.
Definition photo_too_big : File := mkFile "plantain.raw.tiff" 5242881.

Definition data_url (f : File) : string :=
  ("data:image/*;base64," ++ file_name f)%string.

Definition show_number (_ : number) : string := "1200".

(** A validator that refuses a form without a name. *)
Definition name_required (f : VendorDashboard.FormData)
  : VendorDashboard.SafeParseResult :=
  if String.eqb (VendorDashboard.name f) "" then
    VendorDashboard.ParseFailure "Product name is required"
  else accept f.

(** The add-product dialog with the name left out. *)
Definition nameless : VendorDashboard.W :=
  fresh (steady (Normal (Some bob)) (ok (mkRoleRow "vendor")) (ok [])
                (ok [yam]) empty empty)
        (VendorDashboard.mkState
           [yam] false true None "" false None
           (VendorDashboard.mkFormData "" "Ripe, per bunch" "1500" "12"
                                       "Food")).

(** The add-product dialog, filled in, after the session has ended. *)
Definition expired : VendorDashboard.W :=
  fresh (steady (Normal None) empty (ok []) (ok [yam]) empty empty) adding.

(** The dialog opened on [yam], no new image, on a working backend. *)
Definition editing_yam : VendorDashboard.W :=
  fresh (steady (Normal (Some bob)) (ok (mkRoleRow "vendor")) (ok [])
                (ok [kettle; yam]) empty empty)
        (VendorDashboard.mkState
           [kettle; yam] false true None "" false (Some yam)
           (VendorDashboard.mkFormData "Yam tuber" "Fresh from Benue"
                                       "1300" "40" "Food")).

(** The update of [yam] that a form showing [price] and [stock] sends. *)
Definition yam_edit (price stock : string) : Mutation :=
  Update "products"
         (VendorDashboard.product_values
            price_1500 stock_12
            (VendorDashboard.mkParsed "Yam tuber" (Some "Fresh from Benue")
                                      price stock (Some "Food"))
            None)
         [("id", "p-1")].

(** The add-product dialog with an image chosen, while storage refuses
    uploads. *)
Definition storage_full : VendorDashboard.W :=
  fresh (steady (Normal (Some bob)) (ok (mkRoleRow "vendor")) (ok [])
                (ok [yam]) empty (err "The object exceeded the quota"))
        (VendorDashboard.mkState
           [yam] false true (Some photo_5MB) (data_url photo_5MB) false
           None
           (VendorDashboard.mkFormData "Plantain" "Ripe, per bunch" "1500"
                                       "12" "Food")).

(** A backend that deletes but then fails to list the products. *)
Definition deleted_unlisted : VendorDashboard.W :=
  fresh (steady (Normal (Some bob)) (ok (mkRoleRow "vendor")) (ok [])
                (err "canceling statement due to statement timeout")
                empty empty)
        (VendorDashboard.mkState
           [kettle; yam] false false None "" false None
           VendorDashboard.emptyForm).

End Scenario.

(* ================================================================= *)
(** ** Facts about the customer dashboard *)

Section CustomerFacts.

Import Order.
Import CustomerDashboard.

(** The trace only grows by what is appended to it. *)
Lemma skipn_length_app {A} (h l : list A) :
  skipn (List.length h) (h ++ l) = l.
Proof.
  induction h as [|x h IH]; simpl; auto.
Qed.

Ltac run :=
  unfold loadOrders, checkCustomerAndLoadOrders, on_postgres_changes,
    try_catch_finally, try_catch, bind, ret, throw, fire,
    getSession, from_orders, from_user_roles, request,
    setActiveOrders, setOrderHistory, setLoading, modify,
    toast_error, console_error, console_log, navigate, emit,
    set_ui, log; cbn.

(** No session: only the session request and [setLoading(false)]. *)
Lemma loadOrders_no_session (w : W) :
  session_reply w = Normal None ->
  loadOrders w =
    (Normal tt,
     mkWorld (backend w) (trace w ++ [EvGetSession]) (channels w)
             (mkState (activeOrders (ui w)) (orderHistory (ui w)) false)).
Proof.
  unfold session_reply. intros H. run. rewrite H. reflexivity.
Qed.

(** The session request itself is rejected. *)
Lemma loadOrders_session_rejected (w : W) (e : Error) :
  session_reply w = Throw e ->
  loadOrders w =
    (Normal tt,
     mkWorld (backend w)
             (trace w ++ [EvGetSession;
                          EvToastError "Failed to load orders";
                          EvConsoleError e])
             (channels w)
             (mkState (activeOrders (ui w)) (orderHistory (ui w)) false)).
Proof.
  unfold session_reply. intros H. run. rewrite H. cbn.
  rewrite <- !app_assoc. reflexivity.
Qed.

(** The order query is rejected. *)
Lemma loadOrders_fetch_rejected (w : W) (s : Session) (e : Error) :
  session_reply w = Normal (Some s) ->
  orders_reply w s = Throw e ->
  loadOrders w =
    (Normal tt,
     mkWorld (backend w)
             (trace w ++ [EvGetSession;
                          EvSelect (orders_query (Supabase.id (user s)));
                          EvToastError "Failed to load orders";
                          EvConsoleError e])
             (channels w)
             (mkState (activeOrders (ui w)) (orderHistory (ui w)) false)).
Proof.
  unfold session_reply, orders_reply. intros H1 H2. run.
  rewrite H1. cbn. rewrite H2. cbn.
  rewrite <- !app_assoc. reflexivity.
Qed.

(** The order query replies with an error. *)
Lemma loadOrders_fetch_error (w : W) (s : Session)
      (r : Response (list Order.t)) (e : Error) :
  session_reply w = Normal (Some s) ->
  orders_reply w s = Normal r ->
  error r = Some e ->
  loadOrders w =
    (Normal tt,
     mkWorld (backend w)
             (trace w ++ [EvGetSession;
                          EvSelect (orders_query (Supabase.id (user s)));
                          EvToastError "Failed to load orders";
                          EvConsoleError e])
             (channels w)
             (mkState (activeOrders (ui w)) (orderHistory (ui w)) false)).
Proof.
  unfold session_reply, orders_reply. intros H1 H2 H3. run.
  rewrite H1. cbn. rewrite H2. cbn. rewrite H3. cbn.
  rewrite <- !app_assoc. reflexivity.
Qed.

(** The order query succeeds: both lists are replaced by the partition of
    the fetched rows. *)
Lemma loadOrders_fetched (w : W) (s : Session)
      (r : Response (list Order.t)) :
  session_reply w = Normal (Some s) ->
  orders_reply w s = Normal r ->
  error r = None ->
  loadOrders w =
    (Normal tt,
     mkWorld (backend w)
             (trace w ++ [EvGetSession;
                          EvSelect (orders_query (Supabase.id (user s)))])
             (channels w)
             (partitioned (data r))).
Proof.
  unfold session_reply, orders_reply. intros H1 H2 H3. run.
  rewrite H1. cbn. rewrite H2. cbn. rewrite H3. cbn.
  rewrite <- !app_assoc. reflexivity.
Qed.

(** Membership in the two status lists, as the filters decide it. *)
Lemma is_active_spec (o : Order.t) :
  is_active o = true <-> In (status o) [pending; accepted; in_transit].
Proof.
  unfold is_active, includes. destruct (status o); cbn; intuition congruence.
Qed.

Lemma is_history_spec (o : Order.t) :
  is_history o = true <-> In (status o) [delivered; cancelled].
Proof.
  unfold is_history, includes. destruct (status o); cbn; intuition congruence.
Qed.

(** The two filters are complementary on every order. *)
Lemma is_history_negb_active (o : Order.t) :
  is_history o = negb (is_active o).
Proof.
  unfold is_history, is_active, includes. destruct (status o); reflexivity.
Qed.

(** Two complementary filters split a list without loss or duplication. *)
Lemma filter_complement_Permutation {A} (f g : A -> bool) (l : list A) :
  (forall x, g x = negb (f x)) ->
  Permutation (filter f l ++ filter g l) l.
Proof.
  intros Hc. induction l as [|x l IH]; cbn.
  - constructor.
  - rewrite (Hc x). destruct (f x); cbn.
    + now constructor.
    + symmetry. apply Permutation_cons_app. now symmetry.
Qed.

(** Filtering keeps a strongly sorted list strongly sorted. *)
Lemma StronglySorted_filter {A} (R : A -> A -> Prop) (f : A -> bool)
      (l : list A) :
  StronglySorted R l -> StronglySorted R (filter f l).
Proof.
  induction 1 as [|a l Hs IH Ha]; cbn.
  - constructor.
  - destruct (f a); auto. constructor; auto.
    eapply incl_Forall; [apply incl_filter | exact Ha].
Qed.

(** C1. For every order of a successful fetch in [loadOrders]: with status
    pending, accepted or in_transit it is stored in [activeOrders] and not
    in [orderHistory]; with status delivered or cancelled it is stored in
    [orderHistory] and not in [activeOrders]; and every order has a status
    of one of the two groups, so it lands in exactly one list. *)
Theorem loadOrders_partitions_by_status
    (w : W) (s : Session) (r : Response (list Order.t))
    (l : list Order.t) :
  session_reply w = Normal (Some s) ->
  orders_reply w s = Normal r ->
  error r = None ->
  data r = Some l ->
  let w' := snd (loadOrders w) in
  forall o, In o l ->
    (In (status o) [pending; accepted; in_transit] ->
       In o (activeOrders (ui w')) /\ ~ In o (orderHistory (ui w')))
    /\ (In (status o) [delivered; cancelled] ->
          In o (orderHistory (ui w')) /\ ~ In o (activeOrders (ui w')))
    /\ ((In o (activeOrders (ui w')) /\ ~ In o (orderHistory (ui w')))
        \/ (In o (orderHistory (ui w')) /\ ~ In o (activeOrders (ui w')))).
Proof.
  intros Hs Hq He Hd w' o Ho. subst w'.
  rewrite (loadOrders_fetched w s r Hs Hq He). cbn. rewrite Hd. cbn.
  rewrite !filter_In, is_active_spec, is_history_spec.
  destruct (status o); cbn; intuition congruence.
Qed.

Lemma loadOrders_partitions_by_status_witness :
  session_reply Sample.three_orders = Normal (Some Sample.alice)
  /\ orders_reply Sample.three_orders Sample.alice
     = Sample.ok [Sample.order_T3; Sample.order_T2; Sample.order_T1]
  /\ In Sample.order_T3
        (activeOrders (ui (snd (loadOrders Sample.three_orders))))
  /\ ~ In Sample.order_T3
          (orderHistory (ui (snd (loadOrders Sample.three_orders)))).
Proof.
  split; [reflexivity|]. split; [reflexivity|].
  apply (loadOrders_partitions_by_status Sample.three_orders Sample.alice
           (mkResponse (Some [Sample.order_T3; Sample.order_T2;
                              Sample.order_T1]) None)
           [Sample.order_T3; Sample.order_T2; Sample.order_T1]
           eq_refl eq_refl eq_refl eq_refl Sample.order_T3).
  - cbn. auto.
  - cbn. auto.
Defined.

(** C2. After a successful fetch of the list [l], the stored
    [activeOrders] and [orderHistory] together are a rearrangement of [l]:
    no order is duplicated and none is left out.  A fetch without orders
    (an empty list, or no data) ends normally with two empty lists, and in
    either case nothing but the two requests is emitted: no notice. *)
Theorem loadOrders_union_is_fetch
    (w : W) (s : Session) (r : Response (list Order.t)) :
  session_reply w = Normal (Some s) ->
  orders_reply w s = Normal r ->
  error r = None ->
  let w' := snd (loadOrders w) in
  fst (loadOrders w) = Normal tt
  /\ emitted loadOrders w
     = [EvGetSession; EvSelect (orders_query (Supabase.id (user s)))]
  /\ (forall l,
        data r = Some l ->
        Permutation (activeOrders (ui w') ++ orderHistory (ui w')) l)
  /\ (data r = Some [] \/ data r = None ->
      activeOrders (ui w') = [] /\ orderHistory (ui w') = []).
Proof.
  intros Hs Hq He w'. subst w'. unfold emitted.
  rewrite (loadOrders_fetched w s r Hs Hq He). cbn.
  split; [reflexivity|]. split; [apply skipn_length_app|]. split.
  - intros l Hd. rewrite Hd. cbn.
    apply filter_complement_Permutation, is_history_negb_active.
  - intros [Hd|Hd]; rewrite Hd; cbn; auto.
Qed.

Lemma loadOrders_union_is_fetch_witness :
  session_reply Sample.three_orders = Normal (Some Sample.alice)
  /\ orders_reply Sample.three_orders Sample.alice
     = Sample.ok [Sample.order_T3; Sample.order_T2; Sample.order_T1]
  /\ Permutation
       (activeOrders (ui (snd (loadOrders Sample.three_orders)))
          ++ orderHistory (ui (snd (loadOrders Sample.three_orders))))
       [Sample.order_T3; Sample.order_T2; Sample.order_T1]
  /\ activeOrders (ui (snd (loadOrders Sample.three_orders)))
       ++ orderHistory (ui (snd (loadOrders Sample.three_orders)))
     = [Sample.order_T3; Sample.order_T1; Sample.order_T2]
  /\ session_reply Sample.no_orders = Normal (Some Sample.alice)
  /\ orders_reply Sample.no_orders Sample.alice = Sample.ok []
  /\ fst (loadOrders Sample.no_orders) = Normal tt
  /\ activeOrders (ui (snd (loadOrders Sample.no_orders))) = []
  /\ orderHistory (ui (snd (loadOrders Sample.no_orders))) = [].
Proof.
  split; [reflexivity|]. split; [reflexivity|].
  destruct (loadOrders_union_is_fetch Sample.three_orders Sample.alice
              (mkResponse
                 (Some [Sample.order_T3; Sample.order_T2; Sample.order_T1])
                 None)
              eq_refl eq_refl eq_refl) as (_ & _ & Hperm & _).
  split; [exact (Hperm _ eq_refl)|]. split; [reflexivity|].
  split; [reflexivity|]. split; [reflexivity|].
  destruct (loadOrders_union_is_fetch Sample.no_orders Sample.alice
              (mkResponse (Some []) None) eq_refl eq_refl eq_refl)
    as (Hn & _ & _ & H).
  destruct (H (or_introl eq_refl)) as (Ha & Hh).
  split; [exact Hn|]. split; assumption.
Defined.

(** C4. When the order fetch of [loadOrders] fails, by rejection or by an
    error reply, the stored [activeOrders] and [orderHistory] are what
    they were, the notice "Failed to load orders" is raised, and the
    operation ends normally. *)
Theorem loadOrders_failure_keeps_lists (w : W) (s : Session) :
  session_reply w = Normal (Some s) ->
  failed (orders_reply w s) = true ->
  let w' := snd (loadOrders w) in
  fst (loadOrders w) = Normal tt
  /\ activeOrders (ui w') = activeOrders (ui w)
  /\ orderHistory (ui w') = orderHistory (ui w)
  /\ exists e,
       emitted loadOrders w =
         [EvGetSession;
          EvSelect (orders_query (Supabase.id (user s)));
          EvToastError "Failed to load orders";
          EvConsoleError e].
Proof.
  intros Hs Hf w'. subst w'. unfold emitted.
  destruct (orders_reply w s) as [r|e] eqn:Hq.
  - cbn in Hf. destruct (error r) as [e|] eqn:He; [|discriminate].
    rewrite (loadOrders_fetch_error w s r e Hs Hq He). cbn.
    rewrite skipn_length_app. eauto.
  - rewrite (loadOrders_fetch_rejected w s e Hs Hq). cbn.
    rewrite skipn_length_app. eauto.
Qed.

Lemma loadOrders_failure_keeps_lists_witness :
  session_reply Sample.unreachable = Normal (Some Sample.alice)
  /\ failed (orders_reply Sample.unreachable Sample.alice) = true
  /\ fst (loadOrders Sample.unreachable) = Normal tt
  /\ activeOrders (ui (snd (loadOrders Sample.unreachable)))
     = [Sample.order_T1]
  /\ orderHistory (ui (snd (loadOrders Sample.unreachable)))
     = [Sample.order_T2].
Proof.
  split; [reflexivity|]. split; [reflexivity|].
  destruct (loadOrders_failure_keeps_lists Sample.unreachable Sample.alice
              eq_refl eq_refl) as (Hn & Ha & Hh & _).
  split; [exact Hn|]. split; [exact Ha | exact Hh].
Defined.

(** C9. Without a session [loadOrders] ends normally after the session
    request alone: no order query, no notice, no navigation, and the two
    lists are what they were.  [checkCustomerAndLoadOrders] in the same
    situation navigates to the sign-in page. *)
Theorem loadOrders_without_session_is_silent (w : W) :
  session_reply w = Normal None ->
  let w' := snd (loadOrders w) in
  fst (loadOrders w) = Normal tt
  /\ emitted loadOrders w = [EvGetSession]
  /\ activeOrders (ui w') = activeOrders (ui w)
  /\ orderHistory (ui w') = orderHistory (ui w)
  /\ emitted checkCustomerAndLoadOrders w
     = [EvGetSession; EvNavigate "/auth"].
Proof.
  intros Hs w'. subst w'. unfold emitted.
  rewrite (loadOrders_no_session w Hs). cbn.
  rewrite skipn_length_app. repeat split.
  unfold session_reply in Hs. run. rewrite Hs. cbn.
  rewrite <- app_assoc. apply skipn_length_app.
Qed.

Lemma loadOrders_without_session_is_silent_witness :
  session_reply Sample.signed_out = Normal None
  /\ emitted loadOrders Sample.signed_out = [EvGetSession]
  /\ activeOrders (ui (snd (loadOrders Sample.signed_out)))
     = [Sample.order_T1].
Proof.
  split; [reflexivity|].
  destruct (loadOrders_without_session_is_silent Sample.signed_out eq_refl)
    as (_ & He & Ha & _).
  split; [exact He | exact Ha].
Defined.

(** Whatever the backend replies, [loadOrders] ends normally, leaves the
    backend and the subscriptions alone and adds only its own events. *)
Lemma loadOrders_outcome (w : W) :
  fst (loadOrders w) = Normal tt
  /\ backend (snd (loadOrders w)) = backend w
  /\ channels (snd (loadOrders w)) = channels w
  /\ exists evs,
       trace (snd (loadOrders w)) = trace w ++ evs
       /\ Forall loadOrders_event evs.
Proof.
  destruct (session_reply w) as [[s|]|e] eqn:Hs.
  - destruct (orders_reply w s) as [r|e] eqn:Hq.
    + destruct (error r) as [e|] eqn:He.
      * rewrite (loadOrders_fetch_error w s r e Hs Hq He). cbn.
        repeat split. eexists. split; [reflexivity|].
        repeat constructor.
      * rewrite (loadOrders_fetched w s r Hs Hq He). cbn.
        repeat split. eexists. split; [reflexivity|].
        repeat constructor.
    + rewrite (loadOrders_fetch_rejected w s e Hs Hq). cbn.
      repeat split. eexists. split; [reflexivity|].
      repeat constructor.
  - rewrite (loadOrders_no_session w Hs). cbn.
    repeat split. eexists. split; [reflexivity|].
    repeat constructor.
  - rewrite (loadOrders_session_rejected w e Hs). cbn.
    repeat split. eexists. split; [reflexivity|].
    repeat constructor.
Qed.

(** Started without being awaited, [loadOrders] is just run. *)
Lemma fire_loadOrders (w : W) :
  fire loadOrders w = (Normal tt, snd (loadOrders w)).
Proof.
  destruct (loadOrders_outcome w) as (Hn & _).
  unfold fire. destruct (loadOrders w) as [c w']. cbn in *.
  subst c. reflexivity.
Qed.

(** C5. When the fetched rows come newest first, [activeOrders] and
    [orderHistory] after a successful [loadOrders] are newest first too,
    for any ordering of creation timestamps.  With a pending order created
    at T1 and a delivered order created later at T2, fetched as
    [order_T2; order_T1], the lists are [order_T1] and [order_T2]. *)
Theorem loadOrders_keeps_newest_first
    (not_older : string -> string -> Prop)
    (w : W) (s : Session) (r : Response (list Order.t))
    (l : list Order.t) :
  session_reply w = Normal (Some s) ->
  orders_reply w s = Normal r ->
  error r = None ->
  data r = Some l ->
  let desc := fun a b => not_older (created_at a) (created_at b) in
  StronglySorted desc l ->
  let w' := snd (loadOrders w) in
  StronglySorted desc (activeOrders (ui w'))
  /\ StronglySorted desc (orderHistory (ui w'))
  /\ In (EvSelect (orders_query (Supabase.id (user s))))
        (emitted loadOrders w)
  /\ q_order (orders_query (Supabase.id (user s)))
     = Some ("created_at", false)
  /\ forall order_T1 order_T2,
       l = [order_T2; order_T1] ->
       status order_T1 = pending ->
       status order_T2 = delivered ->
       activeOrders (ui w') = [order_T1]
       /\ orderHistory (ui w') = [order_T2].
Proof.
  intros Hs Hq He Hd desc Hsorted w'. subst w'. unfold emitted.
  rewrite (loadOrders_fetched w s r Hs Hq He). cbn. rewrite Hd. cbn.
  split; [now apply StronglySorted_filter|].
  split; [now apply StronglySorted_filter|].
  split; [rewrite skipn_length_app; cbn; auto|].
  split; [reflexivity|].
  intros o1 o2 -> H1 H2. cbn.
  unfold is_active, is_history, includes. rewrite H1, H2. cbn. auto.
Qed.

Lemma loadOrders_keeps_newest_first_witness :
  session_reply Sample.two_orders = Normal (Some Sample.alice)
  /\ orders_reply Sample.two_orders Sample.alice
     = Sample.ok [Sample.order_T2; Sample.order_T1]
  /\ StronglySorted
       (fun a b => Sample.not_older (created_at a) (created_at b))
       [Sample.order_T2; Sample.order_T1]
  /\ activeOrders (ui (snd (loadOrders Sample.two_orders)))
     = [Sample.order_T1]
  /\ orderHistory (ui (snd (loadOrders Sample.two_orders)))
     = [Sample.order_T2].
Proof.
  assert (Hsorted :
            StronglySorted
              (fun a b => Sample.not_older (created_at a) (created_at b))
              [Sample.order_T2; Sample.order_T1]).
  { repeat constructor. }
  split; [reflexivity|]. split; [reflexivity|]. split; [exact Hsorted|].
  destruct (loadOrders_keeps_newest_first Sample.not_older
              Sample.two_orders Sample.alice
              (mkResponse (Some [Sample.order_T2; Sample.order_T1]) None)
              [Sample.order_T2; Sample.order_T1]
              eq_refl eq_refl eq_refl eq_refl Hsorted)
    as (_ & _ & _ & _ & H).
  exact (H Sample.order_T1 Sample.order_T2 eq_refl eq_refl eq_refl).
Defined.

(** C6. A second [loadOrders] against a backend that answers the session
    request and the order query as it did the first time leaves the
    component state, and so [activeOrders] and [orderHistory], as the
    first call left it. *)
Theorem loadOrders_idempotent (w : W) :
  let w1 := snd (loadOrders w) in
  let w2 := snd (loadOrders w1) in
  session_reply w1 = session_reply w ->
  (forall s, session_reply w = Normal (Some s) ->
             orders_reply w1 s = orders_reply w s) ->
  fst (loadOrders w1) = Normal tt
  /\ ui w2 = ui w1
  /\ activeOrders (ui w2) = activeOrders (ui w1)
  /\ orderHistory (ui w2) = orderHistory (ui w1).
Proof.
  intros w1 w2 Hsame Hq1.
  assert (Hui : ui w2 = ui w1).
  { subst w2. destruct (session_reply w) as [[s|]|e] eqn:Hs.
    - specialize (Hq1 s eq_refl).
      destruct (orders_reply w s) as [r|e] eqn:Hq.
      + destruct (error r) as [e|] eqn:He.
        * rewrite (loadOrders_fetch_error w1 s r e Hsame Hq1 He).
          subst w1.
          rewrite (loadOrders_fetch_error w s r e Hs Hq He).
          reflexivity.
        * rewrite (loadOrders_fetched w1 s r Hsame Hq1 He).
          subst w1. rewrite (loadOrders_fetched w s r Hs Hq He).
          reflexivity.
      + rewrite (loadOrders_fetch_rejected w1 s e Hsame Hq1).
        subst w1. rewrite (loadOrders_fetch_rejected w s e Hs Hq).
        reflexivity.
    - rewrite (loadOrders_no_session w1 Hsame).
      subst w1. rewrite (loadOrders_no_session w Hs). reflexivity.
    - rewrite (loadOrders_session_rejected w1 e Hsame).
      subst w1. rewrite (loadOrders_session_rejected w e Hs).
      reflexivity. }
  split; [apply loadOrders_outcome|].
  split; [exact Hui|]. rewrite Hui. split; reflexivity.
Qed.

Lemma loadOrders_idempotent_witness :
  session_reply (snd (loadOrders Sample.three_orders))
    = session_reply Sample.three_orders
  /\ (forall s,
        session_reply Sample.three_orders = Normal (Some s) ->
        orders_reply (snd (loadOrders Sample.three_orders)) s
        = orders_reply Sample.three_orders s)
  /\ activeOrders
       (ui (snd (loadOrders (snd (loadOrders Sample.three_orders)))))
     = [Sample.order_T3; Sample.order_T1]
  /\ orderHistory
       (ui (snd (loadOrders (snd (loadOrders Sample.three_orders)))))
     = [Sample.order_T2].
Proof.
  assert (H2 : forall s,
             session_reply Sample.three_orders = Normal (Some s) ->
             orders_reply (snd (loadOrders Sample.three_orders)) s
             = orders_reply Sample.three_orders s).
  { intros s _. reflexivity. }
  split; [reflexivity|]. split; [exact H2|].
  destruct (loadOrders_idempotent Sample.three_orders eq_refl H2)
    as (_ & _ & Ha & Hh).
  split; [exact Ha | exact Hh].
Defined.

(** The role test of the gate holds exactly for a row with that role. *)
Lemma role_is_true (roleData : option RoleRow) (r : string) :
  role_is roleData r = true
  <-> exists row, roleData = Some row /\ role row = r.
Proof.
  unfold role_is. destruct roleData as [row|].
  - rewrite String.eqb_eq. split.
    + intros H. exists row. auto.
    + intros (row' & Hrow & H). now injection Hrow as ->.
  - split; [discriminate|]. intros (row & Hrow & _). discriminate.
Qed.

(** C7. [checkCustomerAndLoadOrders] at [w]:
    - without a session it navigates to "/auth" and raises no notice;
    - with a session, when the role lookup returned no row or a row whose
      role is not "customer", it raises the access-denied notice,
      navigates to "/" and does nothing else: no order query, component
      state untouched;
    - when the lookup returned a row with the role "customer" it goes on
      to [loadOrders];
    - the access-denied notice is raised exactly when the looked-up role
      is not "customer". *)
Theorem checkCustomerAndLoadOrders_gate (w : W) :
  (session_reply w = Normal None ->
     checkCustomerAndLoadOrders w
     = (Normal tt, log (EvNavigate "/auth") (log EvGetSession w)))
  /\ forall s r,
       session_reply w = Normal (Some s) ->
       role_reply w s = Normal r ->
       let w1 := log (EvSelect (role_query (Supabase.id (user s))))
                     (log EvGetSession w) in
       let customer :=
         exists row, data r = Some row /\ role row = "customer" in
       (~ customer ->
          checkCustomerAndLoadOrders w
          = (Normal tt,
             log (EvNavigate "/") (log (EvToastError access_denied) w1)))
       /\ (customer ->
             checkCustomerAndLoadOrders w
             = (Normal tt, snd (loadOrders w1)))
       /\ (In (EvToastError access_denied)
              (emitted checkCustomerAndLoadOrders w)
           <-> ~ customer).
Proof.
  split.
  - unfold session_reply. intros Hs. run. rewrite Hs. reflexivity.
  - intros s r Hs Hr w1 customer.
    assert (Hden : role_is (data r) "customer" = false ->
                   checkCustomerAndLoadOrders w
                   = (Normal tt,
                      log (EvNavigate "/")
                          (log (EvToastError access_denied) w1))).
    { intros Hrole. subst w1. unfold session_reply, role_reply in *.
      unfold checkCustomerAndLoadOrders, bind, getSession,
        from_user_roles, request. rewrite Hs. cbn. rewrite Hr.
      rewrite Hrole. reflexivity. }
    assert (Hok : role_is (data r) "customer" = true ->
                  checkCustomerAndLoadOrders w
                  = (Normal tt, snd (loadOrders w1))).
    { intros Hrole. subst w1. unfold session_reply, role_reply in *.
      unfold checkCustomerAndLoadOrders, bind, getSession,
        from_user_roles, request. rewrite Hs. cbn. rewrite Hr.
      rewrite Hrole. cbn. apply fire_loadOrders. }
    pose proof (role_is_true (data r) "customer") as Hspec.
    fold customer in Hspec.
    destruct (role_is (data r) "customer") eqn:Hrole.
    + assert (Hc : customer) by now apply Hspec.
      split; [intros Hn; contradiction|]. split; [intros _; now apply Hok|].
      unfold emitted. rewrite (Hok eq_refl). cbn.
      destruct (loadOrders_outcome w1) as (_ & _ & _ & evs & Ht & Hev).
      rewrite Ht. subst w1. cbn. rewrite <- !app_assoc.
      rewrite skipn_length_app. cbn. split; [|intros Hn; contradiction].
      intros [H|[H|H]]; try discriminate.
      rewrite Forall_forall in Hev. apply Hev in H. cbn in H.
      discriminate.
    + assert (Hc : ~ customer).
      { intros Hc. apply Hspec in Hc. discriminate. }
      split; [intros _; now apply Hden|].
      split; [intros Hc'; contradiction|].
      unfold emitted. rewrite (Hden eq_refl). subst w1. cbn.
      rewrite <- !app_assoc. rewrite skipn_length_app. cbn.
      split; [intros _; exact Hc|]. intros _. auto.
Qed.

Lemma checkCustomerAndLoadOrders_gate_witness :
  session_reply Sample.three_orders = Normal (Some Sample.alice)
  /\ role_reply Sample.three_orders Sample.alice
     = Sample.ok (mkRoleRow "customer")
  /\ (exists row,
        Some (mkRoleRow "customer") = Some row /\ role row = "customer")
  /\ emitted checkCustomerAndLoadOrders Sample.three_orders
     = [EvGetSession; EvSelect (role_query "c-1");
        EvGetSession; EvSelect (orders_query "c-1")]
  /\ activeOrders (ui (snd (checkCustomerAndLoadOrders Sample.three_orders)))
     = [Sample.order_T3; Sample.order_T1]
  /\ session_reply Sample.vendor_visiting = Normal (Some Sample.alice)
  /\ role_reply Sample.vendor_visiting Sample.alice
     = Sample.ok (mkRoleRow "vendor")
  /\ ~ (exists row,
          Some (mkRoleRow "vendor") = Some row /\ role row = "customer")
  /\ emitted checkCustomerAndLoadOrders Sample.vendor_visiting
     = [EvGetSession; EvSelect (role_query "c-1");
        EvToastError access_denied; EvNavigate "/"]
  /\ ui (snd (checkCustomerAndLoadOrders Sample.vendor_visiting))
     = initial.
Proof.
  assert (Hc : exists row,
             Some (mkRoleRow "customer") = Some row
             /\ role row = "customer").
  { exists (mkRoleRow "customer"). split; reflexivity. }
  assert (Hv : ~ (exists row,
                    Some (mkRoleRow "vendor") = Some row
                    /\ role row = "customer")).
  { intros (row & Hrow & Hr). injection Hrow as <-. discriminate Hr. }
  split; [reflexivity|]. split; [reflexivity|]. split; [exact Hc|].
  destruct (checkCustomerAndLoadOrders_gate Sample.three_orders)
    as (_ & H).
  destruct (H Sample.alice (mkResponse (Some (mkRoleRow "customer")) None)
              eq_refl eq_refl) as (_ & Hok & _).
  unfold emitted. rewrite (Hok Hc).
  split; [reflexivity|]. split; [reflexivity|].
  split; [reflexivity|]. split; [reflexivity|]. split; [exact Hv|].
  destruct (checkCustomerAndLoadOrders_gate Sample.vendor_visiting)
    as (_ & H').
  destruct (H' Sample.alice (mkResponse (Some (mkRoleRow "vendor")) None)
              eq_refl eq_refl) as (Hden & _ & _).
  rewrite (Hden Hv). split; reflexivity.
Defined.

(** Neither the first check nor a load touches the subscriptions. *)
Lemma checkCustomerAndLoadOrders_channels (w : W) :
  channels (snd (checkCustomerAndLoadOrders w)) = channels w.
Proof.
  unfold checkCustomerAndLoadOrders, bind, getSession, from_user_roles,
    request, navigate, toast_error, emit.
  destruct (auth_getSession (backend w) (trace w)) as [[s|]|e];
    cbn; try reflexivity.
  destruct (select_user_roles _ _ _) as [r|e]; cbn; try reflexivity.
  destruct (role_is (data r) "customer"); cbn; try reflexivity.
  rewrite fire_loadOrders. cbn.
  destruct (loadOrders_outcome
              (log (EvSelect (role_query (Supabase.id (user s))))
                   (log EvGetSession w))) as (_ & _ & Hc & _).
  exact Hc.
Qed.

(** [checkCustomerAndLoadOrders] is its session request followed by what
    it does once the request has settled. *)
Lemma checkCustomerAndLoadOrders_resumes (w : W) :
  checkCustomerAndLoadOrders w
  = (session <- getSession ;; checkCustomerAndLoadOrders_resumed session) w.
Proof.
  reflexivity.
Qed.

(** The resumed check does not touch the subscriptions either. *)
Lemma checkCustomerAndLoadOrders_resumed_channels
      (session : option Session) (w : W) :
  channels (snd (checkCustomerAndLoadOrders_resumed session w))
  = channels w.
Proof.
  unfold checkCustomerAndLoadOrders_resumed, bind, from_user_roles,
    request, navigate, toast_error, emit.
  destruct session as [s|]; cbn; try reflexivity.
  destruct (select_user_roles _ _ _) as [r|e]; cbn; try reflexivity.
  destruct (role_is (data r) "customer"); cbn; try reflexivity.
  rewrite fire_loadOrders. cbn.
  destruct (loadOrders_outcome
              (log (EvSelect (role_query (Supabase.id (user s)))) w))
    as (_ & _ & Hc & _).
  exact Hc.
Qed.

(** Mounting the component subscribes its channel. *)
Lemma useEffect_subscribes (w : W) :
  fst (useEffect w) = Normal tt
  /\ channels (snd (useEffect w)) = channels w ++ [channel].
Proof.
  unfold useEffect, getSession, request, subscribe, fire, bind, settled.
  destruct (auth_getSession (backend w) (trace w)) as [session|e]; cbn.
  - pose proof (checkCustomerAndLoadOrders_resumed_channels
                  session
                  (set_channels (fun cs => cs ++ [channel])
                                (log (EvSubscribe channel)
                                     (log EvGetSession w)))) as Hc.
    destruct (checkCustomerAndLoadOrders_resumed session _)
      as [[[]|e] w']; cbn in *; rewrite Hc; split; reflexivity.
  - split; reflexivity.
Qed.

(** The callback of the subscription reloads, whatever the payload. *)
Lemma on_postgres_changes_reloads (p : ChangePayload) (w : W) :
  on_postgres_changes p w
  = (Normal tt,
     snd (loadOrders (log (EvConsoleLog "Order updated:" p) w))).
Proof.
  unfold on_postgres_changes, bind, console_log, emit.
  apply fire_loadOrders.
Qed.

(** What the binding of the component's channel lets through. *)
Lemma binding_matches_channel (p : ChangePayload) :
  binding_matches (binding channel) p
  = String.eqb "UPDATE" (eventType p)
    && String.eqb "public" (p_schema p)
    && String.eqb "orders" (p_table p).
Proof.
  reflexivity.
Qed.

(** C3, as the code has it.  On a mounted component the change feed hands
    a change to the callback when it is an UPDATE of public.orders, and
    the callback then runs a whole [loadOrders], whatever the payload
    holds: after a successful fetch the component state is the partition
    of the fetched rows.  A change of another kind does not reach the
    callback, and nothing happens. *)
Theorem change_feed_update_reloads (w : W) (p : ChangePayload) :
  channels w = [channel] ->
  let w1 := log (EvConsoleLog "Order updated:" p) w in
  on_postgres_changes p w = (Normal tt, snd (loadOrders w1))
  /\ (eventType p = "UPDATE" ->
      p_schema p = "public" ->
      p_table p = "orders" ->
      onExternalChangeNotification p w = on_postgres_changes p w)
  /\ (forall s r,
        session_reply w1 = Normal (Some s) ->
        orders_reply w1 s = Normal r ->
        error r = None ->
        ui (snd (on_postgres_changes p w)) = partitioned (data r))
  /\ (eventType p <> "UPDATE" ->
      onExternalChangeNotification p w = (Normal tt, w)).
Proof.
  intros Hch w1. split; [apply on_postgres_changes_reloads|].
  split; [|split].
  - intros He Hs Ht.
    unfold onExternalChangeNotification, notify. rewrite Hch.
    unfold dispatch. rewrite binding_matches_channel, He, Hs, Ht.
    change (("UPDATE" =? "UPDATE")%string
            && ("public" =? "public")%string
            && ("orders" =? "orders")%string) with true.
    unfold bind, ret. rewrite on_postgres_changes_reloads. reflexivity.
  - intros s r Hs Hq He. rewrite on_postgres_changes_reloads. cbn.
    fold w1. rewrite (loadOrders_fetched w1 s r Hs Hq He). reflexivity.
  - intros Hne.
    unfold onExternalChangeNotification, notify. rewrite Hch.
    unfold dispatch. rewrite binding_matches_channel.
    destruct (String.eqb_spec "UPDATE" (eventType p)) as [Heq|_].
    + congruence.
    + reflexivity.
Qed.

Lemma change_feed_update_reloads_witness :
  channels Sample.mounted = [channel]
  /\ eventType Sample.update_event = "UPDATE"
  /\ emitted (onExternalChangeNotification Sample.update_event)
             Sample.mounted
     = [EvConsoleLog "Order updated:" Sample.update_event;
        EvGetSession; EvSelect (orders_query "c-1")]
  /\ ui (snd (onExternalChangeNotification Sample.update_event
                                           Sample.mounted))
     = mkState [Sample.order_T1] [Sample.order_T2] false.
Proof.
  split; [reflexivity|]. split; [reflexivity|].
  destruct (change_feed_update_reloads Sample.mounted Sample.update_event
              eq_refl) as (_ & H & _).
  unfold emitted. rewrite (H eq_refl eq_refl eq_refl).
  split; reflexivity.
Defined.

(** C3, as stated, fails: an INSERT into public.orders is a change of the
    orders table signalled by the feed, yet the mounted component neither
    fetches nor changes, although its callback would have fetched. *)
Lemma change_feed_insert_not_reloaded :
  channels Sample.mounted = [channel]
  /\ p_schema Sample.insert_event = "public"
  /\ p_table Sample.insert_event = "orders"
  /\ onExternalChangeNotification Sample.insert_event Sample.mounted
     = (Normal tt, Sample.mounted)
  /\ ~ In (EvSelect (orders_query "c-1"))
          (emitted (onExternalChangeNotification Sample.insert_event)
                   Sample.mounted)
  /\ In (EvSelect (orders_query "c-1"))
        (emitted (on_postgres_changes Sample.insert_event)
                 Sample.mounted).
Proof.
  split; [reflexivity|]. split; [reflexivity|]. split; [reflexivity|].
  split; [reflexivity|]. split.
  - intros H. exact H.
  - cbn. auto.
Qed.

(** The events added are what the trace grew by. *)
Lemma emitted_of_trace {S A} (m : M (World S) A) (w : World S)
      (evs : list Event) :
  trace (snd (m w)) = trace w ++ evs -> emitted m w = evs.
Proof.
  intros Ht. unfold emitted. rewrite Ht. apply skipn_length_app.
Qed.

(** X1. [loadOrders] always ends normally with [loading] false, whatever
    the backend replies, keeps the subscriptions, and adds to the trace
    nothing but the session request, the order query and the report of a
    failure: it never navigates, mutates or subscribes. *)
Theorem loadOrders_always_settles (w : W) :
  fst (loadOrders w) = Normal tt
  /\ loading (ui (snd (loadOrders w))) = false
  /\ channels (snd (loadOrders w)) = channels w
  /\ Forall loadOrders_event (emitted loadOrders w).
Proof.
  destruct (loadOrders_outcome w) as (Hn & _ & Hc & evs & Ht & Hev).
  split; [exact Hn|]. split; [|split; [exact Hc|]].
  - destruct (session_reply w) as [[s|]|e] eqn:Hs.
    + destruct (orders_reply w s) as [r|e] eqn:Hq.
      * destruct (error r) as [e|] eqn:He.
        -- now rewrite (loadOrders_fetch_error w s r e Hs Hq He).
        -- now rewrite (loadOrders_fetched w s r Hs Hq He).
      * now rewrite (loadOrders_fetch_rejected w s e Hs Hq).
    + now rewrite (loadOrders_no_session w Hs).
    + now rewrite (loadOrders_session_rejected w e Hs).
  - rewrite (emitted_of_trace loadOrders w evs Ht). exact Hev.
Qed.

(** X2. Every query [loadOrders] sends is the order query filtered on
    [customer_id] equal to the id of the user of the session the backend
    has just reported; without such a session it sends none. *)
Theorem loadOrders_query_is_scoped (w : W) (q : Query) :
  In (EvSelect q) (emitted loadOrders w) ->
  exists s,
    session_reply w = Normal (Some s)
    /\ q = orders_query (Supabase.id (user s))
    /\ q_eq q = [("customer_id", Supabase.id (user s))].
Proof.
  unfold emitted. destruct (session_reply w) as [[s|]|e] eqn:Hs.
  - assert (Hin : In (EvSelect q)
                     (skipn (List.length (trace w))
                            (trace (snd (loadOrders w)))) ->
                  q = orders_query (Supabase.id (user s))).
    { destruct (orders_reply w s) as [r|e] eqn:Hq.
      - destruct (error r) as [e|] eqn:He.
        + rewrite (loadOrders_fetch_error w s r e Hs Hq He). cbn.
          rewrite skipn_length_app. cbn.
          intros [H|[H|[H|[H|[]]]]]; congruence.
        + rewrite (loadOrders_fetched w s r Hs Hq He). cbn.
          rewrite skipn_length_app. cbn.
          intros [H|[H|[]]]; congruence.
      - rewrite (loadOrders_fetch_rejected w s e Hs Hq). cbn.
        rewrite skipn_length_app. cbn.
        intros [H|[H|[H|[H|[]]]]]; congruence. }
    intros H. apply Hin in H. subst q. exists s. repeat split.
  - rewrite (loadOrders_no_session w Hs). cbn.
    rewrite skipn_length_app. cbn. intros [H|[]]. discriminate.
  - rewrite (loadOrders_session_rejected w e Hs). cbn.
    rewrite skipn_length_app. cbn.
    intros [H|[H|[H|[]]]]; discriminate.
Qed.

Lemma loadOrders_query_is_scoped_witness :
  In (EvSelect (orders_query "c-1"))
     (emitted loadOrders Sample.three_orders)
  /\ exists s,
       session_reply Sample.three_orders = Normal (Some s)
       /\ orders_query "c-1" = orders_query (Supabase.id (user s))
       /\ q_eq (orders_query "c-1")
          = [("customer_id", Supabase.id (user s))].
Proof.
  assert (Hin : In (EvSelect (orders_query "c-1"))
                   (emitted loadOrders Sample.three_orders)).
  { cbn. auto. }
  split; [exact Hin|].
  exact (loadOrders_query_is_scoped Sample.three_orders
           (orders_query "c-1") Hin).
Defined.

(** X3. [checkCustomerAndLoadOrders] has no handler of its own: when the
    session request or the role lookup is rejected, the rejection leaves
    the function with no notice and no navigation.  Started from
    [useEffect], the session request is sent, the channel is subscribed in
    the same turn, and the rejection of the session request is reported
    afterwards as unhandled; the component state is untouched. *)
Theorem checkCustomerAndLoadOrders_rejections_escape (w : W) (e : Error) :
  (session_reply w = Throw e ->
   checkCustomerAndLoadOrders w = (Throw e, log EvGetSession w)
   /\ fst (useEffect w) = Normal tt
   /\ emitted useEffect w
      = [EvGetSession; EvSubscribe channel; EvUnhandledRejection e]
   /\ ui (snd (useEffect w)) = ui w
   /\ channels (snd (useEffect w)) = channels w ++ [channel])
  /\ (forall s,
        session_reply w = Normal (Some s) ->
        role_reply w s = Throw e ->
        checkCustomerAndLoadOrders w
        = (Throw e,
           log (EvSelect (role_query (Supabase.id (user s))))
               (log EvGetSession w))).
Proof.
  split.
  - unfold session_reply. intros Hs. split.
    + unfold checkCustomerAndLoadOrders, bind, getSession, request.
      rewrite Hs. reflexivity.
    + unfold emitted, useEffect, getSession, request, subscribe, fire,
        bind, settled. rewrite Hs. cbn.
      repeat split. rewrite <- !app_assoc. apply skipn_length_app.
  - unfold session_reply, role_reply. intros s Hs Hr.
    unfold checkCustomerAndLoadOrders, bind, getSession, from_user_roles,
      request. rewrite Hs. cbn. rewrite Hr. reflexivity.
Qed.

Lemma checkCustomerAndLoadOrders_rejections_escape_witness :
  session_reply Scenario.offline = Throw (mkError "Failed to fetch")
  /\ emitted useEffect Scenario.offline
     = [EvGetSession; EvSubscribe channel;
        EvUnhandledRejection (mkError "Failed to fetch")]
  /\ ui (snd (useEffect Scenario.offline)) = initial.
Proof.
  split; [reflexivity|].
  destruct (checkCustomerAndLoadOrders_rejections_escape
              Scenario.offline (mkError "Failed to fetch")) as (H & _).
  destruct (H eq_refl) as (_ & _ & He & Hu & _).
  split; [exact He | exact Hu].
Defined.

(** Removing a channel by its topic keeps the channels of other topics. *)
Lemma filter_other_topics (c : Channel) (l : list Channel) :
  Forall (fun c' => topic c' <> topic c) l ->
  filter (fun c' => negb (String.eqb (topic c') (topic c))) l = l.
Proof.
  induction 1 as [|c' l Hne _ IH]; cbn.
  - reflexivity.
  - destruct (String.eqb_spec (topic c') (topic c)) as [Heq|_].
    + contradiction.
    + cbn. now rewrite IH.
Qed.

(** X4. Mounting and unmounting is a round trip on the subscriptions:
    [useEffect] adds the component's channel, its cleanup removes it again
    and touches nothing else; on a component that had no other channel, a
    change notification after the cleanup does nothing at all, whatever
    its kind. *)
Theorem useEffect_cleanup_unsubscribes (w : W) :
  Forall (fun c => topic c <> topic channel) (channels w) ->
  let w1 := snd (useEffect w) in
  let w2 := snd (useEffect_cleanup w1) in
  channels w1 = channels w ++ [channel]
  /\ channels w2 = channels w
  /\ ui w2 = ui w1
  /\ emitted useEffect_cleanup w1 = [EvRemoveChannel channel]
  /\ (channels w = [] ->
      forall p, onExternalChangeNotification p w2 = (Normal tt, w2)).
Proof.
  intros Hother w1 w2.
  destruct (useEffect_subscribes w) as (_ & Hc). fold w1 in Hc.
  assert (Hc2 : channels w2 = channels w).
  { change (channels w2)
      with (filter (fun c' => negb (String.eqb (topic c') (topic channel)))
                   (channels w1)).
    rewrite Hc, filter_app, (filter_other_topics channel _ Hother). cbn.
    apply app_nil_r. }
  split; [exact Hc|]. split; [exact Hc2|]. split; [reflexivity|].
  split.
  - apply emitted_of_trace. reflexivity.
  - intros Hnil p. unfold onExternalChangeNotification, notify.
    rewrite Hc2, Hnil. reflexivity.
Qed.

Lemma useEffect_cleanup_unsubscribes_witness :
  Forall (fun c => topic c <> topic channel) (channels Sample.three_orders)
  /\ channels (snd (useEffect Sample.three_orders)) = [channel]
  /\ channels (snd (useEffect_cleanup (snd (useEffect Sample.three_orders))))
     = [].
Proof.
  assert (H : Forall (fun c => topic c <> topic channel)
                     (channels Sample.three_orders)).
  { constructor. }
  split; [exact H|].
  destruct (useEffect_cleanup_unsubscribes Sample.three_orders H)
    as (H1 & H2 & _).
  split; [exact H1 | exact H2].
Defined.

(** X5. How a status string is shown, for every string: the badge is
    "destructive" exactly for "cancelled"; the description is empty
    exactly for a string that is none of the five statuses; such a string
    gets the "secondary" badge and the clock icon, and so does no error;
    "cancelled" has no icon of its own and gets the clock as well. *)
Theorem status_display (status : string) :
  let known :=
    ["pending"; "accepted"; "in_transit"; "delivered"; "cancelled"] in
  (OrderCard.getStatusBadgeVariant status = "destructive"
   <-> status = "cancelled")
  /\ (OrderCard.getStatusDescription status = "" <-> ~ In status known)
  /\ (~ In status known ->
      OrderCard.getStatusBadgeVariant status = "secondary"
      /\ OrderCard.getStatusIcon status = OrderCard.Clock)
  /\ (status = "cancelled" ->
      OrderCard.getStatusIcon status = OrderCard.Clock).
Proof.
  unfold OrderCard.getStatusBadgeVariant, OrderCard.getStatusDescription,
    OrderCard.getStatusIcon.
  cbv zeta.
  destruct (String.eqb_spec status "pending") as [->|H1];
    [cbn; intuition discriminate|].
  destruct (String.eqb_spec status "accepted") as [->|H2];
    [cbn; intuition discriminate|].
  destruct (String.eqb_spec status "in_transit") as [->|H3];
    [cbn; intuition discriminate|].
  destruct (String.eqb_spec status "delivered") as [->|H4];
    [cbn; intuition discriminate|].
  destruct (String.eqb_spec status "cancelled") as [->|H5];
    [cbn; intuition discriminate|].
  cbn. intuition (try discriminate; try congruence).
Qed.

Lemma status_display_witness :
  ~ In "refunded"
       ["pending"; "accepted"; "in_transit"; "delivered"; "cancelled"]
  /\ OrderCard.getStatusBadgeVariant "refunded" = "secondary"
  /\ OrderCard.getStatusIcon "refunded" = OrderCard.Clock.
Proof.
  assert (H : ~ In "refunded"
                   ["pending"; "accepted"; "in_transit"; "delivered";
                    "cancelled"]).
  { cbn. intuition discriminate. }
  split; [exact H|].
  destruct (status_display "refunded") as (_ & _ & Hd & _).
  exact (Hd H).
Defined.

(** X6. What the two tabs show after a successful [loadOrders].  A card of
    the active tab, which passes [showTracking], never has the
    "destructive" badge, shows a tracking text that is not empty, and its
    label has no underscore left.  A card of the history tab shows no
    tracking box, and every fetched order with the "destructive" badge is
    in the history tab. *)
Theorem tabs_show_status
    (w : W) (s : Session) (r : Response (list Order.t))
    (l : list Order.t) (o : Order.t) :
  session_reply w = Normal (Some s) ->
  orders_reply w s = Normal r ->
  error r = None ->
  data r = Some l ->
  let w' := snd (loadOrders w) in
  let shown := OrderCard.status_string (status o) in
  (In o (activeOrders (ui w')) ->
   OrderCard.getStatusBadgeVariant shown <> "destructive"
   /\ (exists text, OrderCard.tracking true o = Some text /\ text <> "")
   /\ has_char "_" (OrderCard.badge_label o) = false)
  /\ (In o (orderHistory (ui w')) -> OrderCard.tracking false o = None)
  /\ (In o l ->
      OrderCard.getStatusBadgeVariant shown = "destructive" ->
      In o (orderHistory (ui w'))).
Proof.
  intros Hs Hq He Hd w' shown. subst w' shown.
  rewrite (loadOrders_fetched w s r Hs Hq He). cbn. rewrite Hd. cbn.
  rewrite !filter_In. unfold is_active, is_history, includes,
    OrderCard.tracking, OrderCard.badge_label.
  destruct (status o); cbn; repeat split; intros;
    repeat match goal with
           | H : _ /\ _ |- _ => destruct H
           end;
    try discriminate; try tauto;
    try (eexists; split; [reflexivity | discriminate]).
Qed.

Lemma tabs_show_status_witness :
  session_reply Sample.three_orders = Normal (Some Sample.alice)
  /\ orders_reply Sample.three_orders Sample.alice
     = Sample.ok [Sample.order_T3; Sample.order_T2; Sample.order_T1]
  /\ In Sample.order_T3
        (activeOrders (ui (snd (loadOrders Sample.three_orders))))
  /\ has_char "_" (OrderCard.badge_label Sample.order_T3) = false.
Proof.
  assert (Hin : In Sample.order_T3
                   (activeOrders
                      (ui (snd (loadOrders Sample.three_orders))))).
  { cbn. auto. }
  split; [reflexivity|]. split; [reflexivity|]. split; [exact Hin|].
  destruct (tabs_show_status Sample.three_orders Sample.alice
              (mkResponse (Some [Sample.order_T3; Sample.order_T2;
                                 Sample.order_T1]) None)
              [Sample.order_T3; Sample.order_T2; Sample.order_T1]
              Sample.order_T3 eq_refl eq_refl eq_refl eq_refl)
    as (H & _).
  destruct (H Hin) as (_ & _ & Hl). exact Hl.
Defined.

End CustomerFacts.

(* ================================================================= *)
(** ** Facts about the vendor dashboard *)

Section VendorFacts.

Import VendorDashboard.

Variable safeParse : FormData -> SafeParseResult.
Variable parseFloat : string -> number.
Variable parseInt : string -> number.

(** One case split on the next reply of the backend. *)
Ltac crack :=
  match goal with
  | |- context [Date_now ?b ?h] => generalize (Date_now b h); intro
  | |- context [auth_getSession ?b ?h] =>
      destruct (auth_getSession b h) as [[?|]|?] eqn:?
  | |- context [storage_upload ?b ?h ?x ?y ?f] =>
      destruct (storage_upload b h x y f) as [?|?] eqn:?
  | |- context [mutate_products ?b ?h ?m] =>
      destruct (mutate_products b h m) as [?|?] eqn:?
  | |- context [select_products ?b ?h ?q] =>
      destruct (select_products b h q) as [?|?] eqn:?
  | |- context [error ?r] => destruct (error r) eqn:?
  end; cbn.

Ltac unfold_vendor :=
  unfold handleSubmit, handleDelete, loadProducts, uploadImage, resetForm,
    try_catch, try_catch_finally, bind, ret, throw, fire, get,
    getSession, from_products, mutate, upload, request, getPublicUrl,
    date_now, setProducts, setLoading, setIsDialogOpen, setImageFile,
    setImagePreview, setUploading, setEditingProduct, setFormData,
    modify, toast_error, toast_success, emit, set_ui, log; cbn.

(** C10. [loadProducts] sends one request, the query of the products
    table with no equality filter at all, so none on [vendor_id], ordered
    by [created_at] descending, and asks for no session; when the query
    succeeds the rows of the reply are stored as [products] unchanged. *)
Theorem loadProducts_is_unscoped (w : W) (r : Response (list Product.t)) :
  products_reply w = Normal r ->
  error r = None ->
  fst (loadProducts w) = Normal tt
  /\ emitted loadProducts w = [EvSelect products_query]
  /\ q_from products_query = "products"
  /\ q_eq products_query = []
  /\ q_order products_query = Some ("created_at", false)
  /\ products (ui (snd (loadProducts w))) = or_else (data r) [].
Proof.
  unfold products_reply, emitted. intros Hq He. unfold_vendor.
  rewrite Hq. cbn. rewrite He. cbn.
  rewrite skipn_length_app. repeat split.
Qed.

Lemma loadProducts_is_unscoped_witness :
  products_reply Sample.stocked = Sample.ok [Sample.kettle; Sample.yam]
  /\ emitted loadProducts Sample.stocked = [EvSelect products_query]
  /\ products (ui (snd (loadProducts Sample.stocked)))
     = [Sample.kettle; Sample.yam].
Proof.
  split; [reflexivity|].
  destruct (loadProducts_is_unscoped Sample.stocked
              (mkResponse (Some [Sample.kettle; Sample.yam]) None)
              eq_refl eq_refl) as (_ & He & _ & _ & _ & Hp).
  split; [exact He | exact Hp].
Defined.

(** Every run of [handleSubmit] ends normally, and its trace is the old
    one followed by events that are either those of a refused or failed
    submission, with the form as it was, or those of a successful one. *)
Lemma handleSubmit_outcome (w : W) :
  fst (handleSubmit safeParse parseFloat parseInt w) = Normal tt
  /\ exists evs,
       trace (snd (handleSubmit safeParse parseFloat parseInt w))
       = trace w ++ evs
       /\ existsb is_unhandled evs = false
       /\ ((form_of (ui (snd (handleSubmit safeParse parseFloat parseInt w)))
            = form_of (ui w)
            /\ existsb is_toast_error evs = true
            /\ existsb is_toast_success evs = false
            /\ (failed_mutation (backend w) (trace w) evs = true ->
                ends_in_mutation_notice evs = true))
           \/ (form_of
                 (ui (snd (handleSubmit safeParse parseFloat parseInt w)))
               = form_of initial
               /\ existsb is_toast_success evs = true
               /\ failed_mutation (backend w) (trace w) evs = false)).
Proof.
  remember (handleSubmit safeParse parseFloat parseInt w) as res eqn:Hres.
  revert Hres. unfold_vendor.
  destruct (safeParse (formData (ui w))) as [d|msg]; cbn.
  2:{ intros ->. split; [reflexivity|]. eexists. split.
      { cbn. rewrite <- !app_assoc. reflexivity. }
      cbn. split; [reflexivity|]. left. repeat split. discriminate. }
  destruct (imageFile (ui w)) as [file|] eqn:Hfile;
    destruct (editingProduct (ui w)) as [editing|] eqn:Hedit; cbn;
    repeat crack; intros ->;
    (split; [reflexivity|]); eexists;
    (split; [cbn; rewrite <- !app_assoc; reflexivity|]);
    cbn;
    repeat (match goal with
            | H : ?t = _ |- context [?t] => rewrite H
            end; cbn);
    (split; [reflexivity|]);
    first [ left; unfold form_of; cbn; rewrite ?Hfile, ?Hedit;
            repeat split; congruence
          | right; repeat split ].
Qed.

(** C8. A failing product mutation does not escape its handler.
    [handleSubmit] always ends normally and leaves no unhandled rejection;
    when its update or insert was answered with a failure, the form (its
    fields, chosen image, edited product and open dialog) is what it was,
    the mutation request is followed by an error notice and no success
    notice is raised; and the form changes only in a run that raised the
    success notice and had no failed mutation.  [handleDelete] ends
    normally as well, and a failed delete leaves the component state
    unchanged and raises "Failed to delete product". *)
Theorem mutation_failure_is_caught (w : W) (id : string) :
  (fst (handleSubmit safeParse parseFloat parseInt w) = Normal tt
   /\ existsb is_unhandled
        (emitted (handleSubmit safeParse parseFloat parseInt) w) = false
   /\ (failed_mutation
         (backend w) (trace w)
         (emitted (handleSubmit safeParse parseFloat parseInt) w) = true ->
       form_of (ui (snd (handleSubmit safeParse parseFloat parseInt w)))
       = form_of (ui w)
       /\ ends_in_mutation_notice
            (emitted (handleSubmit safeParse parseFloat parseInt) w) = true
       /\ existsb is_toast_success
            (emitted (handleSubmit safeParse parseFloat parseInt) w)
          = false)
   /\ (form_of (ui (snd (handleSubmit safeParse parseFloat parseInt w)))
       <> form_of (ui w) ->
       existsb is_toast_success
         (emitted (handleSubmit safeParse parseFloat parseInt) w) = true
       /\ failed_mutation
            (backend w) (trace w)
            (emitted (handleSubmit safeParse parseFloat parseInt) w)
          = false))
  /\ (fst (handleDelete id w) = Normal tt
      /\ existsb is_unhandled (emitted (handleDelete id) w) = false
      /\ (failed_mutation (backend w) (trace w)
                          (emitted (handleDelete id) w) = true ->
          ui (snd (handleDelete id w)) = ui w
          /\ emitted (handleDelete id) w
             = [EvMutate (Delete "products" [("id", id)]);
                EvToastError "Failed to delete product"])).
Proof.
  split.
  - destruct (handleSubmit_outcome w) as (Hn & evs & Ht & Hu & Hcases).
    assert (Hev : emitted (handleSubmit safeParse parseFloat parseInt) w
                  = evs).
    { transitivity (skipn (List.length (trace w)) (trace w ++ evs)).
      - unfold emitted. f_equal. exact Ht.
      - apply skipn_length_app. }
    rewrite Hev. split; [exact Hn|]. split; [exact Hu|].
    destruct Hcases as [(Hform & _ & Hs & Hm) | (_ & Hs & Hm)].
    + split.
      * intros Hf. auto.
      * intros Hne. contradiction.
    + split.
      * intros Hf. congruence.
      * intros _. auto.
  - unfold emitted.
    remember (handleDelete id w) as res eqn:Hres. revert Hres.
    unfold_vendor.
    repeat crack; intros ->; cbn;
      rewrite <- ?app_assoc; rewrite skipn_length_app; cbn;
      repeat (match goal with
              | H : ?t = _ |- context [?t] => rewrite H
              end; cbn);
      repeat split; try discriminate; try reflexivity.
    all: destruct (ui w); reflexivity.
Qed.

(** Whatever the backend replies, [loadProducts] ends normally with
    [loading] false, sends its one query, and changes nothing of the
    component but the product list and [loading]. *)
Lemma loadProducts_outcome (w : W) :
  fst (loadProducts w) = Normal tt
  /\ backend (snd (loadProducts w)) = backend w
  /\ channels (snd (loadProducts w)) = channels w
  /\ loading (ui (snd (loadProducts w))) = false
  /\ form_of (ui (snd (loadProducts w))) = form_of (ui w)
  /\ uploading (ui (snd (loadProducts w))) = uploading (ui w)
  /\ (trace (snd (loadProducts w)) = trace w ++ [EvSelect products_query]
      \/ (trace (snd (loadProducts w))
          = trace w ++ [EvSelect products_query;
                        EvToastError "Failed to load products"]
          /\ products (ui (snd (loadProducts w))) = products (ui w))).
Proof.
  remember (loadProducts w) as res eqn:Hres. revert Hres.
  unfold_vendor. repeat crack; intros ->; cbn;
    rewrite <- ?app_assoc; cbn; repeat split; auto.
Qed.

(** Started without being awaited, [loadProducts] is just run. *)
Lemma fire_loadProducts (w : W) :
  fire loadProducts w = (Normal tt, snd (loadProducts w)).
Proof.
  destruct (loadProducts_outcome w) as (Hn & _).
  unfold fire. destruct (loadProducts w) as [c w']. cbn in *.
  subst c. reflexivity.
Qed.

(** The role test of the vendor gate holds exactly for a row with that
    role. *)
Lemma vendor_role_is_true (roleData : option RoleRow) (r : string) :
  role_is roleData r = true
  <-> exists row, roleData = Some row /\ role row = r.
Proof.
  unfold role_is. destruct roleData as [row|].
  - rewrite String.eqb_eq. split.
    + intros H. exists row. auto.
    + intros (row' & Hrow & H). now injection Hrow as ->.
  - split; [discriminate|]. intros (row & Hrow & _). discriminate.
Qed.

(** X7. [checkVendorAndLoadProducts] at [w]: without a session it
    navigates to "/auth" and raises no notice; with a session, when the
    role lookup returned no row or a row whose role is not "vendor", it
    raises the access-denied notice, navigates to "/" and leaves the
    component as it was, sending no product query; when the lookup
    returned a row with the role "vendor" it goes on to [loadProducts]. *)
Theorem checkVendorAndLoadProducts_gate (w : W) :
  (session_reply w = Normal None ->
   checkVendorAndLoadProducts w
   = (Normal tt, log (EvNavigate "/auth") (log EvGetSession w)))
  /\ forall s r,
       session_reply w = Normal (Some s) ->
       VendorDialog.role_reply w s = Normal r ->
       let w1 := log (EvSelect (role_query (Supabase.id (user s))))
                     (log EvGetSession w) in
       let vendor :=
         exists row, data r = Some row /\ role row = "vendor" in
       (~ vendor ->
        checkVendorAndLoadProducts w
        = (Normal tt,
           log (EvNavigate "/")
               (log (EvToastError "Access denied. Vendor account required.")
                    w1)))
       /\ (vendor ->
           checkVendorAndLoadProducts w
           = (Normal tt, snd (loadProducts w1))).
Proof.
  split.
  - unfold session_reply. intros Hs.
    unfold checkVendorAndLoadProducts, bind, getSession, request, navigate,
      emit. rewrite Hs. reflexivity.
  - intros s r Hs Hr w1 vendor.
    pose proof (vendor_role_is_true (data r) "vendor") as Hspec.
    fold vendor in Hspec. subst w1.
    unfold session_reply, VendorDialog.role_reply in *.
    split; intros Hv;
      unfold checkVendorAndLoadProducts, bind, getSession, from_user_roles,
        request; rewrite Hs; cbn; rewrite Hr.
    + destruct (role_is (data r) "vendor") eqn:Hrole.
      * exfalso. apply Hv. now apply Hspec.
      * reflexivity.
    + apply Hspec in Hv. rewrite Hv. cbn. apply fire_loadProducts.
Qed.

Lemma checkVendorAndLoadProducts_gate_witness :
  session_reply Sample.stocked = Normal (Some Sample.bob)
  /\ VendorDialog.role_reply Sample.stocked Sample.bob
     = Sample.ok (mkRoleRow "vendor")
  /\ (exists row,
        Some (mkRoleRow "vendor") = Some row /\ role row = "vendor")
  /\ emitted checkVendorAndLoadProducts Sample.stocked
     = [EvGetSession; EvSelect (role_query "v-1");
        EvSelect products_query]
  /\ products (ui (snd (checkVendorAndLoadProducts Sample.stocked)))
     = [Sample.kettle; Sample.yam]
  /\ session_reply Scenario.customer_visiting = Normal (Some Sample.alice)
  /\ VendorDialog.role_reply Scenario.customer_visiting Sample.alice
     = Sample.ok (mkRoleRow "customer")
  /\ ~ (exists row,
          Some (mkRoleRow "customer") = Some row /\ role row = "vendor")
  /\ emitted checkVendorAndLoadProducts Scenario.customer_visiting
     = [EvGetSession; EvSelect (role_query "c-1");
        EvToastError "Access denied. Vendor account required.";
        EvNavigate "/"]
  /\ ui (snd (checkVendorAndLoadProducts Scenario.customer_visiting))
     = initial.
Proof.
  assert (Hv : exists row,
             Some (mkRoleRow "vendor") = Some row /\ role row = "vendor").
  { exists (mkRoleRow "vendor"). split; reflexivity. }
  assert (Hc : ~ (exists row,
                    Some (mkRoleRow "customer") = Some row
                    /\ role row = "vendor")).
  { intros (row & Hrow & Hr). injection Hrow as <-. discriminate Hr. }
  split; [reflexivity|]. split; [reflexivity|]. split; [exact Hv|].
  destruct (checkVendorAndLoadProducts_gate Sample.stocked) as (_ & H).
  destruct (H Sample.bob (mkResponse (Some (mkRoleRow "vendor")) None)
              eq_refl eq_refl) as (_ & Hok).
  unfold emitted. rewrite (Hok Hv).
  split; [reflexivity|]. split; [reflexivity|].
  split; [reflexivity|]. split; [reflexivity|]. split; [exact Hc|].
  destruct (checkVendorAndLoadProducts_gate Scenario.customer_visiting)
    as (_ & H').
  destruct (H' Sample.alice (mkResponse (Some (mkRoleRow "customer")) None)
              eq_refl eq_refl) as (Hden & _).
  rewrite (Hden Hc). split; reflexivity.
Defined.

(** X8. When the product query fails, by rejection or by an error reply,
    [loadProducts] ends normally, raises "Failed to load products" and
    keeps the products it showed; nothing is written to the console.  In
    every case [loading] is false afterwards and the form is untouched. *)
Theorem loadProducts_failure_keeps_products (w : W) :
  loading (ui (snd (loadProducts w))) = false
  /\ form_of (ui (snd (loadProducts w))) = form_of (ui w)
  /\ (failed (products_reply w) = true ->
      fst (loadProducts w) = Normal tt
      /\ products (ui (snd (loadProducts w))) = products (ui w)
      /\ emitted loadProducts w
         = [EvSelect products_query;
            EvToastError "Failed to load products"]).
Proof.
  destruct (loadProducts_outcome w) as (_ & _ & _ & Hl & Hf & _).
  split; [exact Hl|]. split; [exact Hf|].
  unfold products_reply, emitted. clear Hl Hf.
  remember (loadProducts w) as res eqn:Hres. revert Hres.
  unfold_vendor. repeat crack; intros -> Hfail; cbn in *;
    try discriminate;
    rewrite <- ?app_assoc; rewrite skipn_length_app; repeat split.
Qed.

Lemma loadProducts_failure_keeps_products_witness :
  failed (products_reply Scenario.catalogue_down) = true
  /\ products (ui (snd (loadProducts Scenario.catalogue_down)))
     = [Sample.yam]
  /\ emitted loadProducts Scenario.catalogue_down
     = [EvSelect products_query; EvToastError "Failed to load products"].
Proof.
  split; [reflexivity|].
  destruct (loadProducts_failure_keeps_products Scenario.catalogue_down)
    as (_ & _ & H).
  destruct (H eq_refl) as (_ & Hp & He).
  split; [exact Hp | exact He].
Defined.

Variable readAsDataURL : File -> string.

(** X9. [handleImageChange]: a file of more than 5 * 1024 * 1024 bytes is
    refused with a notice and nothing of the component changes; any other
    file, one of exactly that size included, becomes [imageFile] with its
    preview and the rest of the form stays; without a file nothing
    happens. *)
Theorem handleImageChange_size_limit (w : W) (file : File) :
  ((5242880 < file_size file)%Z ->
   handleImageChange readAsDataURL (Some file) w
   = (Normal tt, log (EvToastError "Image size must be less than 5MB") w))
  /\ ((file_size file <= 5242880)%Z ->
      let w' := snd (handleImageChange readAsDataURL (Some file) w) in
      imageFile (ui w') = Some file
      /\ imagePreview (ui w') = readAsDataURL file
      /\ formData (ui w') = formData (ui w)
      /\ editingProduct (ui w') = editingProduct (ui w)
      /\ isDialogOpen (ui w') = isDialogOpen (ui w)
      /\ products (ui w') = products (ui w)
      /\ trace w' = trace w)
  /\ handleImageChange readAsDataURL None w = (Normal tt, w).
Proof.
  unfold handleImageChange. change (5 * 1024 * 1024)%Z with 5242880%Z.
  split; [|split].
  - intros H. apply Z.ltb_lt in H. rewrite H. reflexivity.
  - intros H. apply Z.ltb_ge in H. rewrite H. cbn. repeat split.
  - reflexivity.
Qed.

(** Every run of [handleSubmit], by what it sends: at most one mutation,
    built from the parsed form under the reported session; an upload only
    for a chosen image; and no mutation after a failed upload. *)
Lemma handleSubmit_shape (w : W) :
  uploading (ui (snd (handleSubmit safeParse parseFloat parseInt w)))
  = false
  /\ exists evs,
       trace (snd (handleSubmit safeParse parseFloat parseInt w))
       = trace w ++ evs
       /\ (List.length (filter VendorDialog.is_mutate evs) <= 1)%nat
       /\ (forall m,
             In (EvMutate m) evs ->
             exists d s url,
               safeParse (formData (ui w)) = ParseSuccess d
               /\ session_reply (log EvPreventDefault w) = Normal (Some s)
               /\ m = VendorDialog.submitted_mutation
                        parseFloat parseInt (editingProduct (ui w))
                        (Supabase.id (user s)) d url
               /\ (imageFile (ui w) = None ->
                   url = truthy match editingProduct (ui w) with
                                | Some p => Product.image_url p
                                | None => None
                                end))
       /\ (imageFile (ui w) = None ->
           existsb VendorDialog.is_upload evs = false)
       /\ (VendorDialog.failed_upload (backend w) (trace w) evs = true ->
           existsb VendorDialog.is_mutate evs = false
           /\ existsb is_toast_error evs = true
           /\ form_of
                (ui (snd (handleSubmit safeParse parseFloat parseInt w)))
              = form_of (ui w)).
Proof.
  remember (handleSubmit safeParse parseFloat parseInt w) as res eqn:Hres.
  revert Hres. unfold session_reply. unfold_vendor.
  destruct (safeParse (formData (ui w))) as [d|msg]; cbn.
  2:{ intros ->. split; [reflexivity|]. eexists. split.
      { cbn. rewrite <- !app_assoc. reflexivity. }
      cbn. split; [lia|]. split.
      { intros m [H|[H|[]]]; discriminate. }
      split; [reflexivity|]. discriminate. }
  destruct (imageFile (ui w)) as [file|] eqn:Hfile;
    destruct (editingProduct (ui w)) as [editing|] eqn:Hedit; cbn;
    repeat crack; intros ->;
    (split; [reflexivity|]); eexists;
    (split; [cbn; rewrite <- !app_assoc; reflexivity|]);
    cbn;
    repeat (match goal with
            | H : ?t = _ |- context [?t] => rewrite H
            end; cbn);
    (split; [lia|]);
    (split;
     [ intros m Hin;
       repeat (destruct Hin as [Hin|Hin]; try discriminate Hin);
       try contradiction;
       injection Hin as <-;
       eexists _, _, _;
       (split; [reflexivity|]); (split; [reflexivity|]);
       (split; [reflexivity|]);
       first [ discriminate | reflexivity ]
     | ]);
    (split; [first [ discriminate | reflexivity ]|]);
    first [ discriminate
          | intros _; unfold form_of; cbn; rewrite ?Hfile, ?Hedit;
            repeat split ].
Qed.

(** X10. A form the validator refuses never reaches the backend:
    [handleSubmit] raises the message of the first issue as a notice and
    sends no request at all; the form is what it was and [uploading] is
    false again. *)
Theorem handleSubmit_invalid_form_stays_local (w : W) (msg : string) :
  safeParse (formData (ui w)) = ParseFailure msg ->
  fst (handleSubmit safeParse parseFloat parseInt w) = Normal tt
  /\ emitted (handleSubmit safeParse parseFloat parseInt) w
     = [EvPreventDefault; EvToastError msg]
  /\ form_of (ui (snd (handleSubmit safeParse parseFloat parseInt w)))
     = form_of (ui w)
  /\ products (ui (snd (handleSubmit safeParse parseFloat parseInt w)))
     = products (ui w)
  /\ uploading (ui (snd (handleSubmit safeParse parseFloat parseInt w)))
     = false.
Proof.
  intros Hparse. unfold emitted.
  remember (handleSubmit safeParse parseFloat parseInt w) as res eqn:Hres.
  revert Hres. unfold handleSubmit, bind, get, emit, try_catch_finally.
  rewrite Hparse. unfold_vendor. intros ->. cbn.
  rewrite <- !app_assoc. rewrite skipn_length_app. repeat split.
Qed.

(** X11. Without a session [handleSubmit] sends neither an upload nor a
    mutation, even with an image chosen: after the session request it
    raises the notice "Not authenticated", keeps the form and ends
    normally. *)
Theorem handleSubmit_needs_session (w : W) (d : Parsed) :
  safeParse (formData (ui w)) = ParseSuccess d ->
  session_reply (log EvPreventDefault w) = Normal None ->
  fst (handleSubmit safeParse parseFloat parseInt w) = Normal tt
  /\ emitted (handleSubmit safeParse parseFloat parseInt) w
     = [EvPreventDefault; EvGetSession; EvToastError "Not authenticated"]
  /\ form_of (ui (snd (handleSubmit safeParse parseFloat parseInt w)))
     = form_of (ui w)
  /\ uploading (ui (snd (handleSubmit safeParse parseFloat parseInt w)))
     = false.
Proof.
  unfold session_reply. cbn. intros Hparse Hs. unfold emitted.
  remember (handleSubmit safeParse parseFloat parseInt w) as res eqn:Hres.
  revert Hres. unfold handleSubmit, bind, get, emit, try_catch_finally.
  rewrite Hparse. unfold getSession, request, setUploading, modify, set_ui,
    log. cbn. rewrite Hs. unfold_vendor. intros ->. cbn.
  rewrite <- !app_assoc. rewrite skipn_length_app. repeat split.
Qed.

(** X12. What [handleSubmit] writes.  After every run [uploading] is
    false, and a run sends at most one mutation.  A mutation it sends is
    built from the fields the validator returned: while a product is
    being edited it is an update of "products" for the row whose [id] is
    that product's, never an insert; otherwise it is an insert into
    "products" carrying the id of the session's user as [vendor_id].
    With no image chosen, [image_url] is the edited product's, null when
    that is missing or empty. *)
Theorem handleSubmit_mutation_shape (w : W) :
  uploading (ui (snd (handleSubmit safeParse parseFloat parseInt w)))
  = false
  /\ (List.length
        (filter VendorDialog.is_mutate
                (emitted (handleSubmit safeParse parseFloat parseInt) w))
      <= 1)%nat
  /\ forall m,
       In (EvMutate m)
          (emitted (handleSubmit safeParse parseFloat parseInt) w) ->
       exists d s url,
         safeParse (formData (ui w)) = ParseSuccess d
         /\ session_reply (log EvPreventDefault w) = Normal (Some s)
         /\ m = match editingProduct (ui w) with
                | Some p =>
                    Update "products"
                           (product_values parseFloat parseInt d url)
                           [("id", Product.id p)]
                | None =>
                    Insert "products"
                           (("vendor_id", VString (Supabase.id (user s)))
                            :: product_values parseFloat parseInt d url)
                end
         /\ (imageFile (ui w) = None ->
             url = truthy match editingProduct (ui w) with
                          | Some p => Product.image_url p
                          | None => None
                          end).
Proof.
  destruct (handleSubmit_shape w) as (Hu & evs & Ht & Hone & Hm & _).
  rewrite (emitted_of_trace _ w evs Ht).
  split; [exact Hu|]. split; [exact Hone|].
  intros m Hin. exact (Hm m Hin).
Qed.

(** X13. The image goes first.  [handleSubmit] uploads only when an image
    was chosen, and when the upload fails, by rejection or by an error
    reply, no mutation is sent: an error notice is raised and the form is
    what it was. *)
Theorem handleSubmit_upload_precedes_mutation (w : W) :
  (imageFile (ui w) = None ->
   existsb VendorDialog.is_upload
           (emitted (handleSubmit safeParse parseFloat parseInt) w) = false)
  /\ (VendorDialog.failed_upload
        (backend w) (trace w)
        (emitted (handleSubmit safeParse parseFloat parseInt) w) = true ->
      existsb VendorDialog.is_mutate
              (emitted (handleSubmit safeParse parseFloat parseInt) w)
      = false
      /\ existsb is_toast_error
                 (emitted (handleSubmit safeParse parseFloat parseInt) w)
         = true
      /\ form_of (ui (snd (handleSubmit safeParse parseFloat parseInt w)))
         = form_of (ui w)).
Proof.
  destruct (handleSubmit_shape w) as (_ & evs & Ht & _ & _ & Hup & Hfail).
  rewrite (emitted_of_trace _ w evs Ht). split; assumption.
Qed.

(** X14. [handleDelete] sends one mutation, the delete of the "products"
    row with the given [id], and never changes the product list by
    itself: the list changes only through the reload that follows a
    successful delete.  When that reload fails the deleted product is
    still shown, after the success notice and the notice "Failed to load
    products". *)
Theorem handleDelete_relies_on_reload (w : W) (id : string) :
  filter VendorDialog.is_mutate (emitted (handleDelete id) w)
  = [EvMutate (Delete "products" [("id", id)])]
  /\ form_of (ui (snd (handleDelete id w))) = form_of (ui w)
  /\ (failed (mutate_products (backend w) (trace w)
                              (Delete "products" [("id", id)])) = false ->
      failed (products_reply
                (log (EvToastSuccess "Product deleted successfully!")
                     (log (EvMutate (Delete "products" [("id", id)])) w)))
      = true ->
      products (ui (snd (handleDelete id w))) = products (ui w)
      /\ emitted (handleDelete id) w
         = [EvMutate (Delete "products" [("id", id)]);
            EvToastSuccess "Product deleted successfully!";
            EvSelect products_query;
            EvToastError "Failed to load products"]).
Proof.
  unfold emitted, products_reply.
  remember (handleDelete id w) as res eqn:Hres. revert Hres.
  unfold_vendor.
  repeat crack; intros ->; cbn;
    rewrite <- ?app_assoc; rewrite skipn_length_app; cbn;
    repeat split; intros; try discriminate; try reflexivity;
    try congruence.
Qed.

(** [split] always returns at least one piece. *)
Lemma split_not_nil (sep : ascii) (s : string) : split sep s <> [].
Proof.
  destruct s as [|c s]; cbn; [discriminate|].
  destruct (Ascii.eqb c sep); [discriminate|].
  destruct (split sep s); discriminate.
Qed.

(** A string without the separator is its own single piece, and only
    such a string has a single piece. *)
Lemma split_no_sep (sep : ascii) (s : string) :
  has_char sep s = false -> split sep s = [s].
Proof.
  induction s as [|c s IH]; cbn; intros H; [reflexivity|].
  apply orb_false_iff in H as [Hc Hn]. now rewrite Hc, (IH Hn).
Qed.

Lemma split_single (sep : ascii) (s x : string) :
  split sep s = [x] -> x = s /\ has_char sep s = false.
Proof.
  revert x. induction s as [|c s IH]; cbn; intros x H.
  - injection H as <-. auto.
  - destruct (Ascii.eqb c sep) eqn:Hc.
    + injection H as _ H. now apply split_not_nil in H.
    + destruct (split sep s) as [|y ys] eqn:Hsp.
      * now apply split_not_nil in Hsp.
      * injection H as <- ->. destruct (IH y eq_refl) as [-> Hn].
        now rewrite Hn.
Qed.

(** The last piece holds no separator. *)
Lemma last_split_no_sep (sep : ascii) (s : string) :
  has_char sep (last (split sep s) "") = false.
Proof.
  induction s as [|c s IH]; cbn [split]; [reflexivity|].
  destruct (Ascii.eqb c sep) eqn:Hc.
  - destruct (split sep s) as [|y ys] eqn:Hsp.
    + now apply split_not_nil in Hsp.
    + exact IH.
  - destruct (split sep s) as [|y [|z zs]] eqn:Hsp.
    + now apply split_not_nil in Hsp.
    + cbn in *. now rewrite Hc.
    + exact IH.
Qed.

(** The last piece ends the string, and what is before it is nothing or
    ends with the separator. *)
Lemma last_split_suffix (sep : ascii) (s : string) :
  exists pre,
    s = (pre ++ last (split sep s) "")%string
    /\ (pre = "" \/ exists pre', pre = (pre' ++ String sep "")%string).
Proof.
  induction s as [|c s IH].
  - exists "". cbn. auto.
  - destruct IH as (pre & Hs & Hpre). cbn [split].
    destruct (Ascii.eqb_spec c sep) as [->|Hc].
    + destruct (split sep s) as [|y ys] eqn:Hsp.
      * now apply split_not_nil in Hsp.
      * change (last ("" :: y :: ys) "") with (last (y :: ys) "").
        exists (String sep pre). split; [cbn; now f_equal|].
        right. destruct Hpre as [->|(p & ->)];
          [exists "" | exists (String sep p)]; reflexivity.
    + destruct (split sep s) as [|y [|z zs]] eqn:Hsp.
      * now apply split_not_nil in Hsp.
      * destruct (split_single sep s y Hsp) as [-> _].
        exists "". cbn. auto.
      * change (last (String c y :: z :: zs) "")
          with (last (y :: z :: zs) "").
        exists (String c pre). split; [cbn; now f_equal|].
        right. destruct Hpre as [->|(p & ->)].
        -- exfalso. change (s = last (y :: z :: zs) "") in Hs.
           pose proof (last_split_no_sep sep s) as Hn.
           rewrite Hsp, <- Hs in Hn.
           apply split_no_sep in Hn. rewrite Hsp in Hn. discriminate.
        -- exists (String c p). reflexivity.
Qed.

(** X15. [uploadImage] without a session throws "Not authenticated"
    before any upload.  With a session it uploads the file to the bucket
    "product-images" under the path made of the user's id, "-", the
    clock reading, "." and the extension; the extension is what follows
    the last dot of the file name, so it holds no dot, and it is the whole
    name when the name has no dot.  After a successful upload the result
    is the public address of that path. *)
Theorem uploadImage_path (w : W) (file : File) :
  (session_reply w = Normal None ->
   uploadImage file w
   = (Throw (mkError "Not authenticated"), log EvGetSession w))
  /\ forall s,
       session_reply w = Normal (Some s) ->
       exists ext,
         let path :=
           (Supabase.id (user s) ++ "-"
              ++ string_of_Z (Date_now (backend w)
                                       (trace w ++ [EvGetSession]))
              ++ "." ++ ext)%string in
         emitted (uploadImage file) w
         = [EvGetSession; EvUpload "product-images" path file]
         /\ has_char "." ext = false
         /\ (exists pre,
               file_name file = (pre ++ ext)%string
               /\ (pre = "" \/ exists pre', pre = (pre' ++ ".")%string))
         /\ (has_char "." (file_name file) = false -> ext = file_name file)
         /\ (forall url,
               fst (uploadImage file w) = Normal url ->
               url = storage_getPublicUrl (backend w) "product-images"
                                          path).
Proof.
  unfold session_reply. split.
  - intros Hs. unfold uploadImage, bind, getSession, request, throw.
    rewrite Hs. reflexivity.
  - intros s Hs. exists (last (split "."%char (file_name file)) "").
    cbv zeta. split; [|split; [|split; [|split]]].
    + apply emitted_of_trace.
      unfold uploadImage, bind, getSession, request, date_now, upload,
        throw, getPublicUrl. rewrite Hs. cbn.
      destruct (storage_upload _ _ _ _ _) as [r|e]; cbn;
        [destruct (error r); cbn|]; now rewrite <- app_assoc.
    + apply last_split_no_sep.
    + apply last_split_suffix.
    + intros Hno. now rewrite (split_no_sep _ _ Hno).
    + intros url. unfold uploadImage, bind, getSession, request, date_now,
        upload, throw, getPublicUrl. rewrite Hs. cbn.
      destruct (storage_upload _ _ _ _ _) as [r|e]; cbn;
        [destruct (error r); cbn|]; intros H;
        try discriminate; now injection H as <-.
Qed.

Variable toString : number -> string.

(** [handleDelete] leaves the form alone, whatever the backend replies. *)
Lemma handleDelete_form (w : W) (id : string) :
  form_of (ui (snd (handleDelete id w))) = form_of (ui w).
Proof.
  remember (handleDelete id w) as res eqn:Hres. revert Hres.
  unfold_vendor. repeat crack; intros ->; reflexivity.
Qed.

(** Whether a closed dialog is reset is a matter of the form alone. *)
Lemma form_of_reset (s s' : State) :
  form_of s' = form_of s ->
  VendorDialog.closed_is_reset s -> VendorDialog.closed_is_reset s'.
Proof.
  unfold form_of, VendorDialog.closed_is_reset. intros H Hb Hclosed.
  injection H as Hf Hi Hp He Ho.
  rewrite Hf, Hi, He. apply Hb. now rewrite <- Ho.
Qed.

(** [handleImageChange] is its first turn followed, for a file that was
    accepted, by the callback of the reader. *)
Lemma handleImageChange_turns (file : option File) (w : W) :
  handleImageChange readAsDataURL file w
  = (VendorDialog.handleImageChange_started file ;;
     match file with
     | Some f =>
         if (5 * 1024 * 1024 <? file_size f)%Z then ret tt
         else VendorDialog.reader_onloadend readAsDataURL f
     | None => ret tt
     end) w.
Proof.
  unfold handleImageChange, VendorDialog.handleImageChange_started,
    VendorDialog.reader_onloadend.
  destruct file as [f|]; [|reflexivity].
  destruct (5 * 1024 * 1024 <? file_size f)%Z; reflexivity.
Qed.

(** The last turn of a successful submission closes and resets. *)
Lemma submission_succeeded_form (notice : string) (w : W) :
  form_of (ui (snd (VendorDialog.submission_succeeded notice w)))
  = form_of initial.
Proof.
  unfold VendorDialog.submission_succeeded, resetForm, bind, toast_success,
    emit, setIsDialogOpen, setFormData, setImageFile, setImagePreview,
    setEditingProduct, setUploading, modify.
  cbn -[loadProducts]. rewrite fire_loadProducts. cbn -[loadProducts].
  match goal with
  | |- context [loadProducts ?x] =>
      destruct (loadProducts_outcome x) as (_ & _ & _ & _ & Hf & _)
  end.
  unfold form_of in *. cbn -[loadProducts] in *. exact Hf.
Qed.

(** One turn keeps a closed dialog reset. *)
Lemma act_keeps_reset (a : VendorDialog.Action) (w : W) :
  VendorDialog.enabled a (ui w) = true ->
  VendorDialog.closed_is_reset (ui w) ->
  VendorDialog.closed_is_reset
    (ui (snd (VendorDialog.act safeParse parseFloat parseInt toString
                               readAsDataURL a w))).
Proof.
  intros Hen Hb.
  destruct a as [[|]| |p|id|f v|[file|]| | |file|notice|notice|];
    cbn [VendorDialog.act VendorDialog.enabled] in *.
  - intros H. discriminate H.
  - intros _. repeat split.
  - intros H. discriminate H.
  - intros H. discriminate H.
  - exact (form_of_reset _ _ (handleDelete_form w id) Hb).
  - intros H. cbn in H. congruence.
  - unfold VendorDialog.handleImageChange_started.
    destruct (5 * 1024 * 1024 <? file_size file)%Z; intros H; cbn in H;
      congruence.
  - exact Hb.
  - intros H. cbn in H. congruence.
  - destruct (handleSubmit_outcome w) as (_ & evs & _ & _ & Hcases).
    destruct Hcases as [(Hform & _) | (Hform & _)].
    + exact (form_of_reset _ _ Hform Hb).
    + apply (form_of_reset initial _ Hform). intros _. repeat split.
  - intros H. cbn in *. exact (Hb H).
  - apply (form_of_reset initial _ (submission_succeeded_form notice w)).
    intros _. repeat split.
  - intros H. cbn in *. exact (Hb H).
  - destruct (loadProducts_outcome w) as (_ & _ & _ & _ & Hf & _).
    exact (form_of_reset _ _ Hf Hb).
Qed.

(** X16. While the dialog is closed, the fields are empty, no image file
    is chosen and no product is being edited; every turn of the page
    keeps it so, the callbacks that run late included (the reader's
    [onloadend], the end of a submission, a reload), so it holds after
    any sequence of turns.  The preview is not part of it: the reader's
    callback sets it after [handleImageChange] has returned, and when the
    dialog was closed in between, the closed dialog is left with the
    preview of the file. *)
Theorem closed_dialog_is_reset (w : W) :
  (forall acts w',
     VendorDialog.closed_is_reset (ui w) ->
     VendorDialog.interact safeParse parseFloat parseInt toString
                           readAsDataURL acts w = Some w' ->
     VendorDialog.closed_is_reset (ui w'))
  /\ (forall file,
        isDialogOpen (ui w) = true ->
        (file_size file <= 5 * 1024 * 1024)%Z ->
        exists w',
          VendorDialog.interact
            safeParse parseFloat parseInt toString readAsDataURL
            [VendorDialog.ImageChange (Some file);
             VendorDialog.OpenChange false;
             VendorDialog.ReaderLoaded file] w = Some w'
          /\ isDialogOpen (ui w') = false
          /\ imageFile (ui w') = None
          /\ imagePreview (ui w') = readAsDataURL file).
Proof.
  split.
  - intros acts. revert w.
    induction acts as [|a acts IH]; cbn; intros w w' Hb Hrun.
    + now injection Hrun as <-.
    + destruct (VendorDialog.enabled a (ui w)) eqn:Hen; [|discriminate].
      eapply IH; [|exact Hrun]. now apply act_keeps_reset.
  - intros file Hopen Hsize. apply Z.ltb_ge in Hsize.
    eexists. split.
    + cbn [VendorDialog.interact VendorDialog.enabled]. rewrite Hopen.
      cbn [VendorDialog.act]. reflexivity.
    + unfold VendorDialog.handleImageChange_started. rewrite Hsize.
      repeat split.
Qed.

(** X17. Editing and cancelling.  Submitting right after [handleEdit] of a
    product can only update the row of that product; after the dialog is
    closed and opened again the edit is forgotten: the form is blank and
    a submission can only insert. *)
Theorem edit_updates_cancel_forgets
    (w : W) (p : Product.t) (m : Mutation) :
  let editing := snd (handleEdit toString p w) in
  let reopened :=
    snd (VendorDialog.onOpenChange
           true (snd (VendorDialog.onOpenChange false editing))) in
  (In (EvMutate m)
      (emitted (handleSubmit safeParse parseFloat parseInt) editing) ->
   exists values, m = Update "products" values [("id", Product.id p)])
  /\ form_of (ui reopened) = (emptyForm, None, "", None, true)
  /\ (In (EvMutate m)
         (emitted (handleSubmit safeParse parseFloat parseInt) reopened) ->
      exists values, m = Insert "products" values).
Proof.
  intros editing reopened. split; [|split].
  - destruct (handleSubmit_shape editing) as (_ & evs & Ht & _ & Hm & _).
    rewrite (emitted_of_trace _ editing evs Ht). intros Hin.
    destruct (Hm m Hin) as (d & s & url & _ & _ & -> & _).
    eexists. reflexivity.
  - reflexivity.
  - destruct (handleSubmit_shape reopened) as (_ & evs & Ht & _ & Hm & _).
    rewrite (emitted_of_trace _ reopened evs Ht). intros Hin.
    destruct (Hm m Hin) as (d & s & url & _ & _ & -> & _).
    eexists. reflexivity.
Qed.

End VendorFacts.

Lemma mutation_failure_is_caught_witness :
  VendorDashboard.failed_mutation
    (backend Sample.refused) (trace Sample.refused)
    (emitted (VendorDashboard.handleSubmit
                Sample.accept Sample.price_1500 Sample.stock_12)
             Sample.refused) = true
  /\ VendorDashboard.form_of
       (ui (snd (VendorDashboard.handleSubmit
                   Sample.accept Sample.price_1500 Sample.stock_12
                   Sample.refused)))
     = VendorDashboard.form_of Sample.adding
  /\ VendorDashboard.ends_in_mutation_notice
       (emitted (VendorDashboard.handleSubmit
                   Sample.accept Sample.price_1500 Sample.stock_12)
                Sample.refused) = true.
Proof.
  split; [reflexivity|].
  destruct (mutation_failure_is_caught
              Sample.accept Sample.price_1500 Sample.stock_12
              Sample.refused "p-1") as ((_ & _ & H & _) & _).
  destruct (H eq_refl) as (Hform & Hnotice & _).
  split; [exact Hform | exact Hnotice].
Defined.

Lemma handleImageChange_size_limit_witness :
  (file_size Scenario.photo_5MB <= 5242880)%Z
  /\ VendorDashboard.imageFile
       (ui (snd (VendorDashboard.handleImageChange
                   Scenario.data_url (Some Scenario.photo_5MB)
                   Sample.refused)))
     = Some Scenario.photo_5MB
  /\ (5242880 < file_size Scenario.photo_too_big)%Z
  /\ VendorDashboard.handleImageChange
       Scenario.data_url (Some Scenario.photo_too_big) Sample.refused
     = (Normal tt,
        log (EvToastError "Image size must be less than 5MB")
            Sample.refused).
Proof.
  assert (H1 : (file_size Scenario.photo_5MB <= 5242880)%Z)
    by (cbn; lia).
  assert (H2 : (5242880 < file_size Scenario.photo_too_big)%Z)
    by (cbn; lia).
  split; [exact H1|].
  destruct (handleImageChange_size_limit
              Scenario.data_url Sample.refused Scenario.photo_5MB)
    as (_ & Hok & _).
  destruct (Hok H1) as (Hfile & _).
  split; [exact Hfile|]. split; [exact H2|].
  destruct (handleImageChange_size_limit
              Scenario.data_url Sample.refused Scenario.photo_too_big)
    as (Hbig & _).
  exact (Hbig H2).
Defined.

Lemma handleSubmit_invalid_form_stays_local_witness :
  Scenario.name_required (VendorDashboard.formData (ui Scenario.nameless))
  = VendorDashboard.ParseFailure "Product name is required"
  /\ emitted (VendorDashboard.handleSubmit
                Scenario.name_required Sample.price_1500 Sample.stock_12)
             Scenario.nameless
     = [EvPreventDefault; EvToastError "Product name is required"].
Proof.
  split; [reflexivity|].
  destruct (handleSubmit_invalid_form_stays_local
              Scenario.name_required Sample.price_1500 Sample.stock_12
              Scenario.nameless "Product name is required" eq_refl)
    as (_ & He & _).
  exact He.
Defined.

Lemma handleSubmit_needs_session_witness :
  session_reply (log EvPreventDefault Scenario.expired) = Normal None
  /\ emitted (VendorDashboard.handleSubmit
                Sample.accept Sample.price_1500 Sample.stock_12)
             Scenario.expired
     = [EvPreventDefault; EvGetSession; EvToastError "Not authenticated"]
  /\ VendorDashboard.form_of
       (ui (snd (VendorDashboard.handleSubmit
                   Sample.accept Sample.price_1500 Sample.stock_12
                   Scenario.expired)))
     = VendorDashboard.form_of Sample.adding.
Proof.
  split; [reflexivity|].
  destruct (handleSubmit_needs_session
              Sample.accept Sample.price_1500 Sample.stock_12
              Scenario.expired
              (VendorDashboard.mkParsed "Plantain" (Some "Ripe, per bunch")
                                        "1500" "12" (Some "Food"))
              eq_refl eq_refl) as (_ & He & Hf & _).
  split; [exact He | exact Hf].
Defined.

Lemma handleSubmit_mutation_shape_witness :
  In (EvMutate (Scenario.yam_edit "1300" "40"))
     (emitted (VendorDashboard.handleSubmit
                 Sample.accept Sample.price_1500 Sample.stock_12)
              Scenario.editing_yam)
  /\ (exists d s url,
        Sample.accept (VendorDashboard.formData (ui Scenario.editing_yam))
        = VendorDashboard.ParseSuccess d
        /\ session_reply (log EvPreventDefault Scenario.editing_yam)
           = Normal (Some s)
        /\ Scenario.yam_edit "1300" "40"
           = Update "products"
                    (VendorDashboard.product_values
                       Sample.price_1500 Sample.stock_12 d url)
                    [("id", Product.id Sample.yam)]
        /\ (VendorDashboard.imageFile (ui Scenario.editing_yam) = None ->
            url = VendorDashboard.truthy (Product.image_url Sample.yam)))
  /\ VendorDashboard.uploading
       (ui (snd (VendorDashboard.handleSubmit
                   Sample.accept Sample.price_1500 Sample.stock_12
                   Scenario.editing_yam))) = false.
Proof.
  assert (Hin :
    In (EvMutate (Scenario.yam_edit "1300" "40"))
       (emitted (VendorDashboard.handleSubmit
                   Sample.accept Sample.price_1500 Sample.stock_12)
                Scenario.editing_yam)).
  { cbn. auto. }
  split; [exact Hin|].
  destruct (handleSubmit_mutation_shape
              Sample.accept Sample.price_1500 Sample.stock_12
              Scenario.editing_yam) as (Hu & _ & Hm).
  split; [exact (Hm (Scenario.yam_edit "1300" "40") Hin) | exact Hu].
Defined.

Lemma handleSubmit_upload_precedes_mutation_witness :
  VendorDialog.failed_upload
    (backend Scenario.storage_full) (trace Scenario.storage_full)
    (emitted (VendorDashboard.handleSubmit
                Sample.accept Sample.price_1500 Sample.stock_12)
             Scenario.storage_full) = true
  /\ existsb VendorDialog.is_mutate
             (emitted (VendorDashboard.handleSubmit
                         Sample.accept Sample.price_1500 Sample.stock_12)
                      Scenario.storage_full) = false.
Proof.
  assert (Hf :
    VendorDialog.failed_upload
      (backend Scenario.storage_full) (trace Scenario.storage_full)
      (emitted (VendorDashboard.handleSubmit
                  Sample.accept Sample.price_1500 Sample.stock_12)
               Scenario.storage_full) = true).
  { reflexivity. }
  split; [exact Hf|].
  destruct (handleSubmit_upload_precedes_mutation
              Sample.accept Sample.price_1500 Sample.stock_12
              Scenario.storage_full) as (_ & H).
  destruct (H Hf) as (Hm & _). exact Hm.
Defined.

Lemma handleDelete_relies_on_reload_witness :
  failed (mutate_products (backend Scenario.deleted_unlisted)
                          (trace Scenario.deleted_unlisted)
                          (Delete "products" [("id", "p-1")])) = false
  /\ VendorDashboard.products
       (ui (snd (VendorDashboard.handleDelete
                   "p-1" Scenario.deleted_unlisted)))
     = [Sample.kettle; Sample.yam]
  /\ emitted (VendorDashboard.handleDelete "p-1") Scenario.deleted_unlisted
     = [EvMutate (Delete "products" [("id", "p-1")]);
        EvToastSuccess "Product deleted successfully!";
        EvSelect VendorDashboard.products_query;
        EvToastError "Failed to load products"].
Proof.
  split; [reflexivity|].
  destruct (handleDelete_relies_on_reload Scenario.deleted_unlisted "p-1")
    as (_ & _ & H).
  exact (H eq_refl eq_refl).
Defined.

Lemma uploadImage_path_witness :
  session_reply Scenario.storage_full = Normal (Some Sample.bob)
  /\ emitted (VendorDashboard.uploadImage Scenario.photo_too_big)
             Scenario.storage_full
     = [EvGetSession;
        EvUpload "product-images" "v-1-1740819600000.tiff"
                 Scenario.photo_too_big]
  /\ exists ext,
       has_char "." ext = false
       /\ exists pre,
            file_name Scenario.photo_too_big = (pre ++ ext)%string
            /\ (pre = "" \/ exists pre', pre = (pre' ++ ".")%string).
Proof.
  split; [reflexivity|]. split; [reflexivity|].
  destruct (uploadImage_path Scenario.storage_full Scenario.photo_too_big)
    as (_ & H).
  destruct (H Sample.bob eq_refl) as (ext & _ & Hno & Hsuf & _).
  exists ext. split; [exact Hno | exact Hsuf].
Defined.

Lemma closed_dialog_is_reset_witness :
  VendorDialog.closed_is_reset (ui Sample.stocked)
  /\ (exists w',
        VendorDialog.interact
          Sample.accept Sample.price_1500 Sample.stock_12
          Scenario.show_number Scenario.data_url
          [VendorDialog.Edit Sample.yam;
           VendorDialog.Change VendorDialog.FName "Yam, large";
           VendorDialog.ImageChange (Some Scenario.photo_5MB);
           VendorDialog.OpenChange false;
           VendorDialog.ReaderLoaded Scenario.photo_5MB]
          Sample.stocked = Some w'
        /\ VendorDialog.closed_is_reset (ui w'))
  /\ VendorDashboard.isDialogOpen (ui Sample.refused) = true
  /\ (file_size Scenario.photo_5MB <= 5 * 1024 * 1024)%Z
  /\ exists w',
       VendorDialog.interact
         Sample.accept Sample.price_1500 Sample.stock_12
         Scenario.show_number Scenario.data_url
         [VendorDialog.ImageChange (Some Scenario.photo_5MB);
          VendorDialog.OpenChange false;
          VendorDialog.ReaderLoaded Scenario.photo_5MB]
         Sample.refused = Some w'
       /\ VendorDashboard.isDialogOpen (ui w') = false
       /\ VendorDashboard.imageFile (ui w') = None
       /\ VendorDashboard.imagePreview (ui w')
          = Scenario.data_url Scenario.photo_5MB.
Proof.
  assert (Hb : VendorDialog.closed_is_reset (ui Sample.stocked)).
  { intros _. repeat split. }
  assert (Hsize : (file_size Scenario.photo_5MB <= 5 * 1024 * 1024)%Z).
  { cbn. lia. }
  split; [exact Hb|]. split.
  - eexists. split; [reflexivity|].
    refine (proj1 (closed_dialog_is_reset
                     Sample.accept Sample.price_1500 Sample.stock_12
                     Scenario.data_url Scenario.show_number
                     Sample.stocked)
                  [VendorDialog.Edit Sample.yam;
                   VendorDialog.Change VendorDialog.FName "Yam, large";
                   VendorDialog.ImageChange (Some Scenario.photo_5MB);
                   VendorDialog.OpenChange false;
                   VendorDialog.ReaderLoaded Scenario.photo_5MB]
                  _ Hb _).
    reflexivity.
  - split; [reflexivity|]. split; [exact Hsize|].
    exact (proj2 (closed_dialog_is_reset
                    Sample.accept Sample.price_1500 Sample.stock_12
                    Scenario.data_url Scenario.show_number
                    Sample.refused)
                 Scenario.photo_5MB eq_refl Hsize).
Defined.

Lemma edit_updates_cancel_forgets_witness :
  In (EvMutate (Scenario.yam_edit "1200" "1200"))
     (emitted (VendorDashboard.handleSubmit
                 Sample.accept Sample.price_1500 Sample.stock_12)
              (snd (VendorDashboard.handleEdit
                      Scenario.show_number Sample.yam Sample.stocked)))
  /\ exists values,
       Scenario.yam_edit "1200" "1200"
       = Update "products" values [("id", Product.id Sample.yam)].
Proof.
  assert (Hin :
    In (EvMutate (Scenario.yam_edit "1200" "1200"))
       (emitted (VendorDashboard.handleSubmit
                   Sample.accept Sample.price_1500 Sample.stock_12)
                (snd (VendorDashboard.handleEdit
                        Scenario.show_number Sample.yam Sample.stocked)))).
  { cbn. auto. }
  split; [exact Hin|].
  destruct (edit_updates_cancel_forgets
              Sample.accept Sample.price_1500 Sample.stock_12
              Scenario.show_number Sample.stocked Sample.yam
              (Scenario.yam_edit "1200" "1200"))
    as (H & _).
  exact (H Hin).
Defined.
